(** * Calculadora de risco para transplante renal (IQR-BR)

    A shallow embedding of [src/app.py]: the scoring engine
    [calcular_score_risco] and the branch that picks the risk banner,
    followed by the properties of the specification that hold of them.

    Python values are modelled as the interpreter holds them:
    - an [int] is a [Z];
    - a [float] is an IEEE 754 binary64 number, here Rocq's primitive
      [float], whose comparisons and arithmetic are the hardware's;
    - the [dict] of contributions is a finite map from labels to points;
    - an operation that can raise returns a [result]. *)

From Stdlib Require Import ZArith QArith Qabs Qround Floats Lia.
From stdpp Require Import gmap strings fin_maps pretty sorting.

(** A decimal literal denotes the nearest binary64 number, in Python as here. *)
#[local] Set Warnings "-inexact-float".

Open Scope Z_scope.

(** ** Python's numbers and exceptions *)

Inductive exception : Set :=
  | ZeroDivisionError.

Inductive result (A : Type) : Type :=
  | Ok (a : A)
  | Raise (e : exception).

Arguments Ok {A} a.
Arguments Raise {A} e.

#[global] Instance result_ret : MRet result := @Ok.
#[global] Instance result_bind : MBind result :=
  λ A B f r, match r with Ok a => f a | Raise e => Raise e end.

(** [float(z)] for an [int] that binary64 holds exactly (up to 2^53 in
    magnitude); the scorer only converts sums of points and the literals
    [190] and [100]. *)
Definition float_of_int (z : Z) : float :=
  if z <? 0 then (- PrimFloat.of_uint63 (Uint63.of_Z (- z)))%float
  else PrimFloat.of_uint63 (Uint63.of_Z z).

(** [a / b] on two [int]s: true division.  It raises on a zero divisor and
    otherwise gives the correctly rounded quotient, which for operands that
    convert exactly is the binary64 quotient of the converted operands. *)
Definition int_truediv (a b : Z) : result float :=
  if b =? 0 then Raise ZeroDivisionError
  else Ok (float_of_int a / float_of_int b)%float.

(** [x * n] for a [float] and an [int]: the [int] is converted first. *)
Definition float_mul_int (x : float) (n : Z) : float :=
  (x * float_of_int n)%float.

(** [sum(d.values())]: the values are added up starting from [0].  Python
    adds them in insertion order and the fold in the order of the keys; the
    points are unbounded integers, so the total is the same. *)
Definition sum_values (d : gmap string Z) : Z :=
  map_fold (λ _ v acc, acc + v) 0 d.

(** ** The seven factors (app.py, lines 22-74) *)

(** 1. Idade do doador. *)
Definition pontos_idade (idade : Z) : Z :=
  if (40 <=? idade) && (idade <=? 49) then 15
  else if (50 <=? idade) && (idade <=? 59) then 25
  else if idade >=? 60 then 40
  else 0.

(** 2. Creatinina sérica. *)
Definition pontos_creatinina (creatinina : float) : Z :=
  if ((1.5 <=? creatinina) && (creatinina <=? 2.5))%float then 20
  else if (2.5 <? creatinina)%float then 35
  else 0.

(** 5. Tempo de isquemia fria.  The specification declares it a decimal; the
    page passes whole hours from 0 to 72, which binary64 holds exactly and
    Python compares by value. *)
Definition pontos_isquemia (tempo_isquemia : float) : Z :=
  if ((12 <=? tempo_isquemia) && (tempo_isquemia <=? 20))%float then 15
  else if ((21 <=? tempo_isquemia) && (tempo_isquemia <=? 28))%float then 25
  else if (28 <? tempo_isquemia)%float then 35
  else 0.

Definition score_maximo_possivel : Z := 190.

(** The dictionary [fatores_risco] as it stands at line 75, after the seven
    factors were examined in order: each tiered factor is stored when its
    points are positive, each flag when it is set.  (The counter [pontos] of
    line 19 is never read again and is left out.) *)
Definition fatores_de_risco (idade : Z) (creatinina : float) (has dm : bool)
    (tempo_isquemia : float) (pcr hcv : bool) : gmap string Z :=
  let fatores_risco : gmap string Z := ∅ in
  let fatores_risco :=
    if 0 <? pontos_idade idade
    then <["Idade" := pontos_idade idade]> fatores_risco
    else fatores_risco in
  let fatores_risco :=
    if 0 <? pontos_creatinina creatinina
    then <["Creatinina" := pontos_creatinina creatinina]> fatores_risco
    else fatores_risco in
  let fatores_risco :=
    if has then let pontos_has := 25 in <["Hipertensão" := pontos_has]> fatores_risco
    else fatores_risco in
  let fatores_risco :=
    if dm then let pontos_dm := 30 in <["Diabetes" := pontos_dm]> fatores_risco
    else fatores_risco in
  let fatores_risco :=
    if 0 <? pontos_isquemia tempo_isquemia
    then <["Tempo de Isquemia" := pontos_isquemia tempo_isquemia]> fatores_risco
    else fatores_risco in
  let fatores_risco :=
    if pcr then let pontos_pcr := 15 in <["PCR" := pontos_pcr]> fatores_risco
    else fatores_risco in
  let fatores_risco :=
    if hcv then let pontos_hcv := 10 in <["Hepatite C" := pontos_hcv]> fatores_risco
    else fatores_risco in
  fatores_risco.

(** ** The scoring function (app.py, lines 14-84) *)

Definition calcular_score_risco (idade : Z) (creatinina : float) (has dm : bool)
    (tempo_isquemia : float) (pcr hcv : bool) : result (float * gmap string Z) :=
  let fatores_risco :=
    fatores_de_risco idade creatinina has dm tempo_isquemia pcr hcv in
  let score_bruto := sum_values fatores_risco in
  quociente ← int_truediv score_bruto score_maximo_possivel;
  let score_percentual := float_mul_int quociente 100 in
  mret (score_percentual, fatores_risco).

(** ** The risk banner (app.py, lines 124-132)

    The page picks one of three banners from the percentage; the
    specification calls this choice [classify].  Only the choice is
    modelled, not the rendering. *)

Inductive faixa : Set :=
  | RISCO_BAIXO
  | RISCO_MODERADO
  | RISCO_ALTO.

Definition classify (score : float) : faixa :=
  if (score <? 30)%float then RISCO_BAIXO
  else if ((30 <=? score) && (score <? 60))%float then RISCO_MODERADO
  else RISCO_ALTO.

(** The bands in increasing order of risk. *)
Definition faixa_rank (f : faixa) : Z :=
  match f with
  | RISCO_BAIXO => 0
  | RISCO_MODERADO => 1
  | RISCO_ALTO => 2
  end.

(** ** The declared input domain (specification, section 3)

    Age in [0,120], creatinine in (0,15], ischemia time at least 0.  The
    scorer itself checks none of this. *)

Definition in_domain (idade : Z) (creatinina tempo_isquemia : float) : bool :=
  (0 <=? idade) && (idade <=? 120)
  && (0 <? creatinina)%float && (creatinina <=? 15)%float
  && (0 <=? tempo_isquemia)%float.

(** The points awarded by the seven factors, added up. *)
Definition pontos_atribuidos (idade : Z) (creatinina : float) (has dm : bool)
    (tempo_isquemia : float) (pcr hcv : bool) : Z :=
  pontos_idade idade + pontos_creatinina creatinina
  + (if has then 25 else 0) + (if dm then 30 else 0)
  + pontos_isquemia tempo_isquemia
  + (if pcr then 15 else 0) + (if hcv then 10 else 0).

(** The percentage for a raw score, as lines 81-82 compute it. *)
Definition percentual (score_bruto : Z) : float :=
  (float_of_int score_bruto / 190 * 100)%float.

(** What the proofs check of [percentual] at each attainable raw score. *)
Definition percentual_ok (score_bruto : Z) : bool :=
  (0 <=? percentual score_bruto)%float
  && (percentual score_bruto <=? 100)%float
  && Bool.eqb (percentual score_bruto =? 0)%float (score_bruto =? 0).

(** The labels the scorer can store under. *)
Definition rotulos : gset string :=
  {[ "Idade"; "Creatinina"; "Hipertensão"; "Diabetes";
     "Tempo de Isquemia"; "PCR"; "Hepatite C" ]}.

(** The rational a finite binary64 number stands for. *)
Definition float_value (x : float) : option Q :=
  match Prim2SF x with
  | S754_zero _ => Some 0%Q
  | S754_finite s m e =>
      let n := if s then Z.neg m else Z.pos m in
      Some (if (0 <=? e)%Z then Qmake (n * 2 ^ e) 1
            else Qmake n (2 ^ Z.to_pos (- e)))
  | S754_infinity _ | S754_nan => None
  end.

(** The distance between the percentage computed for a raw score and the
    rational 100 * score / 190 is at most [bound]. *)
Definition drift_within (bound : Q) (score_bruto : Z) : bool :=
  match float_value (percentual score_bruto) with
  | Some v => Qle_bool (Qabs (v - (100 * score_bruto # 190))) bound
  | None => false
  end.

(** ** The page around the scorer (app.py, lines 91-157)

    Streamlit's calls are modelled by what they put on the page; the inputs
    are what the sidebar widgets hand over. *)

(** One call of [st.<name>]; a bar chart is its two data columns. *)
Inductive elemento : Set :=
  | st_markdown (body : string)
  | st_header (body : string)
  | st_subheader (body : string)
  | st_success (body : string)
  | st_warning (body : string)
  | st_error (body : string)
  | st_info (body : string)
  | st_plotly_chart (x : list Z) (y : list string).

(** The results area: what is written before the columns, and each column. *)
Record resultados : Set := {
  principal : list elemento;
  col1 : list elemento;
  col2 : list elemento
}.

(** [st.radio(..., ("Não", "Sim"))] returns one of its two options. *)
Definition opcao (resposta : string) : bool :=
  String.eqb resposta "Não" || String.eqb resposta "Sim".

(** What the widgets of lines 95-104 can hand over: [number_input] keeps its
    value between [min_value] and [max_value], and is an [int] when these
    are. *)
Definition sidebar (idade : Z) (creatinina : float) (tempo_isquemia : Z)
    (has dm pcr hcv : string) : bool :=
  (0 <=? idade) && (idade <=? 100)
  && (0.1 <=? creatinina)%float && (creatinina <=? 10.0)%float
  && (0 <=? tempo_isquemia) && (tempo_isquemia <=? 72)
  && opcao has && opcao dm && opcao pcr && opcao hcv.

(** Lines 55-62 as Python runs them on the whole hours of the sidebar:
    [int] against [int]. *)
Definition pontos_isquemia_horas (tempo_isquemia : Z) : Z :=
  if (12 <=? tempo_isquemia) && (tempo_isquemia <=? 20) then 15
  else if (21 <=? tempo_isquemia) && (tempo_isquemia <=? 28) then 25
  else if tempo_isquemia >? 28 then 35
  else 0.

(** Rounding to the nearest integer, a tie going to the even one. *)
Definition round_half_even (q : Q) : Z :=
  let f := Qfloor q in
  match Qcompare (q - inject_Z f) (1 # 2) with
  | Lt => f
  | Gt => f + 1
  | Eq => if Z.even f then f else f + 1
  end.

(** [format(x, ".0f")]: the decimal digits of the integer nearest to the
    exact value of [x], ties to even, with the sign of [x]. *)
Definition format_0f (x : float) : string :=
  match Prim2SF x with
  | S754_nan => "nan"
  | S754_infinity s => if s then "-inf" else "inf"
  | S754_zero s => if s then "-0" else "0"
  | S754_finite s m e =>
      let v := if (0 <=? e)%Z then Qmake (Z.pos m * 2 ^ e) 1
               else Qmake (Z.pos m) (2 ^ Z.to_pos (- e)) in
      (if s then "-" else "") +:+ pretty (round_half_even v)
  end.

(** The heading of the first column: the f-string of lines 125, 128, 131. *)
Definition h1 (color : string) (score : float) : string :=
  "<h1 style='text-align: center; color: " +:+ color +:+ ";'>"
  +:+ format_0f score +:+ "%</h1>".

(** The first column (lines 120-132). *)
Definition coluna_score (score : float) : list elemento :=
  st_subheader "Score de Risco (IQR-BR)" ::
  if (score <? 30)%float then
    [ st_markdown (h1 "green" score);
      st_success "**RISCO BAIXO:** Perfil favorável, associado a maior expectativa de sobrevida do enxerto." ]
  else if ((30 <=? score) && (score <? 60))%float then
    [ st_markdown (h1 "orange" score);
      st_warning "**RISCO MODERADO:** Presença de fatores de risco que podem impactar a sobrevida do enxerto. Avaliar com cautela." ]
  else
    [ st_markdown (h1 "red" score);
      st_error "**RISCO ALTO:** Múltiplos fatores de risco significativos. Associado a menor expectativa de sobrevida do enxerto." ].

Section Pagina.

(** Lines 140-141: the data frame of the dictionary's items, sorted by
    [Pontos] in ascending order.  It is pandas' work and stays a parameter;
    the properties below assume of it only that it holds the items of the
    dictionary and that the points ascend, whatever the order of equal
    points. *)
Variable df_fatores : gmap string Z → list (string * Z).

(** The second column (lines 134-157); of the figure, the two data columns
    [x = Pontos] and [y = Fator]. *)
Definition coluna_fatores (fatores : gmap string Z) : list elemento :=
  st_subheader "Contribuição por Fator de Risco" ::
  if bool_decide (fatores = ∅) then
    [ st_info "Nenhum fator de risco significativo identificado para este doador." ]
  else
    [ st_plotly_chart (df_fatores fatores).*2 (df_fatores fatores).*1 ].

(** Lines 106-132 and 134-157: the answers become booleans, the scorer runs
    and the results area is written. *)
Definition pagina (idade : Z) (creatinina : float) (tempo_isquemia : Z)
    (has dm pcr hcv : string) : result resultados :=
  let has_bool := String.eqb has "Sim" in
  let dm_bool := String.eqb dm "Sim" in
  let pcr_bool := String.eqb pcr "Sim" in
  let hcv_bool := String.eqb hcv "Sim" in
  '(score, fatores) ←
    calcular_score_risco idade creatinina has_bool dm_bool
      (float_of_int tempo_isquemia) pcr_bool hcv_bool;
  mret {| principal := [ st_markdown "---"; st_header "Resultados da Avaliação" ];
          col1 := coluna_score score;
          col2 := coluna_fatores fatores |}.

End Pagina.

(** Rows in ascending order of [Pontos]. *)
Definition pontos_le (a b : string * Z) : Prop := a.2 ≤ b.2.

#[global] Instance pontos_le_dec : RelDecision pontos_le :=
  λ a b, Z_le_dec a.2 b.2.

(** The sorted data frame by a sort of this development, to run the page. *)
Definition df_fatores_merge (fatores : gmap string Z) : list (string * Z) :=
  merge_sort pontos_le (map_to_list fatores).

(** The integer nearest to the exact percentage of a raw score. *)
Definition percentual_inteiro (score_bruto : Z) : Z :=
  (200 * score_bruto + 190) / 380.

(** What the proofs check of the page at each raw score: the number shown,
    its agreement with the band, the order of consecutive percentages and
    the boundaries. *)
Definition mostrado_ok (score_bruto : Z) : bool :=
  String.eqb (format_0f (percentual score_bruto))
             (pretty (percentual_inteiro score_bruto))
  && (percentual score_bruto <? percentual (score_bruto + 1))%float
  && Bool.eqb (percentual score_bruto <? 30)%float
              (percentual_inteiro score_bruto <? 30)
  && Bool.eqb (percentual score_bruto <? 60)%float
              (percentual_inteiro score_bruto <? 60)
  && Bool.eqb (percentual score_bruto =? 100)%float (score_bruto =? 190)
  && Bool.eqb (percentual score_bruto =? 30)%float (score_bruto =? 57)
  && Bool.eqb (percentual score_bruto =? 60)%float (score_bruto =? 114).

Definition horas_ok (tempo_isquemia : Z) : bool :=
  (pontos_isquemia (float_of_int tempo_isquemia)
   =? pontos_isquemia_horas tempo_isquemia)
  && (0 <=? float_of_int tempo_isquemia)%float.

(** * The order on binary64 numbers

    [FloatAxioms] specifies the primitive comparisons by [SFcompare] on the
    decoded number; the facts below are read off that specification.  None
    of them needs the number to be in canonical form: [SFcompare] orders by
    sign, then exponent, then mantissa. *)

Section SpecOrder.
Implicit Types x y z : spec_float.

#[local] Ltac sf_split :=
  repeat match goal with
  | |- context [(?a ?= ?b)%Z] => destruct (Z.compare_spec a b)
  | H : context [(?a ?= ?b)%Z] |- _ => destruct (Z.compare_spec a b)
  | |- context [PosDef.Pos.compare_cont Eq ?a ?b] =>
      change (PosDef.Pos.compare_cont Eq a b) with (Pos.compare a b) in *;
      destruct (Pos.compare_spec a b)
  | H : context [PosDef.Pos.compare_cont Eq ?a ?b] |- _ =>
      change (PosDef.Pos.compare_cont Eq a b) with (Pos.compare a b) in *;
      destruct (Pos.compare_spec a b)
  end.

#[local] Ltac sf_order :=
  unfold SFleb, SFltb, SFcompare;
  repeat match goal with
  | x : spec_float |- _ => destruct x as [[]|[]| |[] ? ?]
  end;
  simpl; try done; intros;
  sf_split; simpl in *; subst; try done; try lia.

Lemma SFleb_ltb_trans x y z :
  SFleb x y = true → SFltb y z = true → SFltb x z = true.
Proof. sf_order. Qed.

Lemma SFltb_leb_trans x y z :
  SFltb x y = true → SFleb y z = true → SFltb x z = true.
Proof. sf_order. Qed.

Lemma SFleb_trans x y z :
  SFleb x y = true → SFleb y z = true → SFleb x z = true.
Proof. sf_order. Qed.

Lemma SFltb_leb x y : SFltb x y = true → SFleb x y = true.
Proof. sf_order. Qed.

Lemma SFltb_not_leb x y : SFltb x y = true → SFleb y x = false.
Proof. sf_order. Qed.

Lemma SFleb_not_ltb x y : SFleb x y = true → SFltb y x = false.
Proof. sf_order. Qed.

Lemma SFleb_total x y :
  SFleb x x = true → SFleb y y = true → SFltb x y = true ∨ SFleb y x = true.
Proof. sf_order; auto. Qed.

Lemma SFleb_refl_l x y : SFleb x y = true → SFleb x x = true.
Proof. sf_order. Qed.

Lemma SFleb_refl_r x y : SFleb x y = true → SFleb y y = true.
Proof. sf_order. Qed.

End SpecOrder.

Section FloatOrder.
Implicit Types x y z : float.
Open Scope float_scope.

#[local] Ltac to_spec :=
  rewrite ?FloatAxioms.ltb_spec, ?FloatAxioms.leb_spec.

Lemma float_le_lt_trans x y z : (x <=? y) = true → (y <? z) = true → (x <? z) = true.
Proof. to_spec. apply SFleb_ltb_trans. Qed.

Lemma float_lt_le_trans x y z : (x <? y) = true → (y <=? z) = true → (x <? z) = true.
Proof. to_spec. apply SFltb_leb_trans. Qed.

Lemma float_le_trans x y z : (x <=? y) = true → (y <=? z) = true → (x <=? z) = true.
Proof. to_spec. apply SFleb_trans. Qed.

Lemma float_lt_le x y : (x <? y) = true → (x <=? y) = true.
Proof. to_spec. apply SFltb_leb. Qed.

Lemma float_lt_not_le x y : (x <? y) = true → (y <=? x) = false.
Proof. to_spec. apply SFltb_not_leb. Qed.

Lemma float_le_not_lt x y : (x <=? y) = true → (y <? x) = false.
Proof. to_spec. apply SFleb_not_ltb. Qed.

(** A number that compares with anything is not a NaN, and two such
    numbers are comparable. *)
Lemma float_le_total x y :
  (x <=? x) = true → (y <=? y) = true → (x <? y) = true ∨ (y <=? x) = true.
Proof. to_spec. apply SFleb_total. Qed.

Lemma float_le_refl_l x y : (x <=? y) = true → (x <=? x) = true.
Proof. to_spec. apply SFleb_refl_l. Qed.

Lemma float_le_refl_r x y : (x <=? y) = true → (y <=? y) = true.
Proof. to_spec. apply SFleb_refl_r. Qed.

(** For numbers that are not NaN, [<?] is the negation of the converse [<=?]. *)
Lemma float_not_le_lt x y :
  (x <=? x) = true → (y <=? y) = true → (y <=? x) = false → (x <? y) = true.
Proof. intros Hx Hy Hn. destruct (float_le_total x y Hx Hy); congruence. Qed.

Lemma float_not_lt_le x y :
  (x <=? x) = true → (y <=? y) = true → (x <? y) = false → (y <=? x) = true.
Proof. intros Hx Hy Hn. destruct (float_le_total x y Hx Hy); congruence. Qed.
End FloatOrder.

(** * The contributions dictionary *)

Section Dictionary.
Implicit Types (d : gmap string Z) (k : string) (v : Z).

Lemma sum_values_empty : sum_values ∅ = 0.
Proof. unfold sum_values. apply map_fold_empty. Qed.

Lemma sum_values_insert d k v :
  d !! k = None → sum_values (<[k:=v]> d) = sum_values d + v.
Proof.
  intros Hk. unfold sum_values.
  rewrite map_fold_insert_L; [done | intros; lia | done].
Qed.

(** The shape of every update of the scorer: a guarded assignment. *)
Lemma lookup_guarded_insert (b : bool) d k k' v :
  (if b then <[k:=v]> d else d) !! k' =
  if b && bool_decide (k = k') then Some v else d !! k'.
Proof.
  destruct b; simpl; [|done].
  case_bool_decide as Hk.
  - subst. apply lookup_insert_eq.
  - by apply lookup_insert_ne.
Qed.

Lemma sum_values_guarded_insert (b : bool) d k v :
  d !! k = None →
  sum_values (if b then <[k:=v]> d else d) = sum_values d + (if b then v else 0).
Proof.
  intros Hk. destruct b; [by apply sum_values_insert | lia].
Qed.

Lemma guarded_insert_empty (b : bool) d k v :
  (if b then <[k:=v]> d else d) = ∅ ↔ b = false ∧ d = ∅.
Proof.
  destruct b; split.
  - intros H. by apply insert_non_empty in H.
  - intros [? _]. discriminate.
  - done.
  - by intros [_ ->].
Qed.
End Dictionary.

(** * The tiers *)

Lemma pontos_idade_cases idade :
  pontos_idade idade = 0 ∨ pontos_idade idade = 15
  ∨ pontos_idade idade = 25 ∨ pontos_idade idade = 40.
Proof. unfold pontos_idade. repeat case_match; auto. Qed.

Lemma pontos_creatinina_cases creatinina :
  pontos_creatinina creatinina = 0 ∨ pontos_creatinina creatinina = 20
  ∨ pontos_creatinina creatinina = 35.
Proof. unfold pontos_creatinina. repeat case_match; auto. Qed.

Lemma pontos_isquemia_cases tempo_isquemia :
  pontos_isquemia tempo_isquemia = 0 ∨ pontos_isquemia tempo_isquemia = 15
  ∨ pontos_isquemia tempo_isquemia = 25 ∨ pontos_isquemia tempo_isquemia = 35.
Proof. unfold pontos_isquemia. repeat case_match; auto. Qed.

Section Scorer.
Context (idade : Z) (creatinina : float) (has dm : bool)
  (tempo_isquemia : float) (pcr hcv : bool).

#[local] Abbreviation fatores :=
  (fatores_de_risco idade creatinina has dm tempo_isquemia pcr hcv).
#[local] Abbreviation pontos :=
  (pontos_atribuidos idade creatinina has dm tempo_isquemia pcr hcv).

(** What the dictionary holds under each label, and under no other. *)
Lemma fatores_lookup k :
  fatores !! k =
    if hcv && bool_decide ("Hepatite C" = k) then Some 10
    else if pcr && bool_decide ("PCR" = k) then Some 15
    else if (0 <? pontos_isquemia tempo_isquemia)
            && bool_decide ("Tempo de Isquemia" = k)
         then Some (pontos_isquemia tempo_isquemia)
    else if dm && bool_decide ("Diabetes" = k) then Some 30
    else if has && bool_decide ("Hipertensão" = k) then Some 25
    else if (0 <? pontos_creatinina creatinina) && bool_decide ("Creatinina" = k)
         then Some (pontos_creatinina creatinina)
    else if (0 <? pontos_idade idade) && bool_decide ("Idade" = k)
         then Some (pontos_idade idade)
    else None.
Proof.
  unfold fatores_de_risco. cbv zeta.
  rewrite !lookup_guarded_insert. by rewrite lookup_empty.
Qed.

Lemma sum_values_fatores : sum_values fatores = pontos.
Proof.
  unfold fatores_de_risco, pontos_atribuidos. cbv zeta.
  rewrite !sum_values_guarded_insert, sum_values_empty.
  - pose proof (pontos_idade_cases idade).
    pose proof (pontos_creatinina_cases creatinina).
    pose proof (pontos_isquemia_cases tempo_isquemia).
    repeat case_match; lia.
  - done.
  - rewrite !lookup_guarded_insert. by rewrite lookup_empty, !andb_false_r.
  - rewrite !lookup_guarded_insert. by rewrite lookup_empty, !andb_false_r.
  - rewrite !lookup_guarded_insert. by rewrite lookup_empty, !andb_false_r.
  - rewrite !lookup_guarded_insert. by rewrite lookup_empty, !andb_false_r.
  - rewrite !lookup_guarded_insert. by rewrite lookup_empty, !andb_false_r.
  - rewrite !lookup_guarded_insert. by rewrite lookup_empty, !andb_false_r.
Qed.
End Scorer.

(** * The percentage *)

Lemma percentual_ok_all :
  forallb percentual_ok (map Z.of_nat (seq 0 191)) = true.
Proof. vm_compute. reflexivity. Qed.

Lemma percentual_ok_range s : 0 ≤ s ≤ 190 → percentual_ok s = true.
Proof.
  intros Hs. pose proof percentual_ok_all as Hall.
  rewrite forallb_forall in Hall. apply Hall.
  apply in_map_iff. exists (Z.to_nat s). split; [lia|].
  apply in_seq. lia.
Qed.

Lemma percentual_range s :
  0 ≤ s ≤ 190 →
  (0 <=? percentual s)%float = true ∧ (percentual s <=? 100)%float = true.
Proof.
  intros Hs%percentual_ok_range. unfold percentual_ok in Hs.
  apply andb_prop in Hs as [Hs _]. by apply andb_prop in Hs.
Qed.

Lemma percentual_zero s :
  0 ≤ s ≤ 190 → (percentual s =? 0)%float = true ↔ s = 0.
Proof.
  intros Hs%percentual_ok_range. unfold percentual_ok in Hs.
  apply andb_prop in Hs as [_ Hs]. apply Bool.eqb_prop in Hs.
  rewrite Hs. apply Z.eqb_eq.
Qed.

Section ScorerResult.
Context (idade : Z) (creatinina : float) (has dm : bool)
  (tempo_isquemia : float) (pcr hcv : bool).

#[local] Abbreviation fatores :=
  (fatores_de_risco idade creatinina has dm tempo_isquemia pcr hcv).
#[local] Abbreviation pontos :=
  (pontos_atribuidos idade creatinina has dm tempo_isquemia pcr hcv).

Lemma pontos_atribuidos_range : 0 ≤ pontos ≤ 190.
Proof.
  unfold pontos_atribuidos.
  pose proof (pontos_idade_cases idade).
  pose proof (pontos_creatinina_cases creatinina).
  pose proof (pontos_isquemia_cases tempo_isquemia).
  destruct has, dm, pcr, hcv; lia.
Qed.

(** The raw score converts to binary64 without rounding, and so does the
    maximum: the operands of the division are exact. *)
Lemma score_bruto_range : 0 ≤ sum_values fatores ≤ score_maximo_possivel.
Proof. rewrite sum_values_fatores. apply pontos_atribuidos_range. Qed.

(** The scorer returns, and what it returns. *)
Lemma calcular_score_risco_eq :
  calcular_score_risco idade creatinina has dm tempo_isquemia pcr hcv =
  Ok (percentual (sum_values fatores), fatores).
Proof. reflexivity. Qed.

Lemma pontos_zero_iff :
  pontos = 0 ↔
  pontos_idade idade = 0 ∧ pontos_creatinina creatinina = 0
  ∧ has = false ∧ dm = false
  ∧ pontos_isquemia tempo_isquemia = 0 ∧ pcr = false ∧ hcv = false.
Proof.
  unfold pontos_atribuidos.
  pose proof (pontos_idade_cases idade).
  pose proof (pontos_creatinina_cases creatinina).
  pose proof (pontos_isquemia_cases tempo_isquemia).
  split.
  - destruct has, dm, pcr, hcv; intros; repeat split; try done; lia.
  - intros (-> & -> & -> & -> & -> & -> & ->). done.
Qed.

Lemma fatores_empty_iff :
  fatores = ∅ ↔
  pontos_idade idade = 0 ∧ pontos_creatinina creatinina = 0
  ∧ has = false ∧ dm = false
  ∧ pontos_isquemia tempo_isquemia = 0 ∧ pcr = false ∧ hcv = false.
Proof.
  unfold fatores_de_risco. cbv zeta.
  rewrite !guarded_insert_empty, !Z.ltb_ge.
  pose proof (pontos_idade_cases idade).
  pose proof (pontos_creatinina_cases creatinina).
  pose proof (pontos_isquemia_cases tempo_isquemia).
  split.
  - intros (-> & -> & ? & -> & -> & ? & ? & _). repeat split; lia.
  - intros (-> & -> & -> & -> & -> & -> & ->). done.
Qed.

Lemma fatores_positive k v : fatores !! k = Some v → 0 < v.
Proof.
  rewrite fatores_lookup.
  repeat (case_match; [intros [= <-] |]); try lia; try done;
    repeat match goal with
    | H : _ && _ = true |- _ => apply andb_prop in H as [H _]
    end; lia.
Qed.
End ScorerResult.

(** * The tiers of the two decimal factors *)

Section DecimalTiers.
Implicit Types c t : float.
Open Scope float_scope.

Lemma creatinina_mid c :
  (1.5 <=? c) = true → (c <=? 2.5) = true → pontos_creatinina c = 20%Z.
Proof. intros H1 H2. unfold pontos_creatinina. by rewrite H1, H2. Qed.

Lemma creatinina_high c : (2.5 <? c) = true → pontos_creatinina c = 35%Z.
Proof.
  intros H. unfold pontos_creatinina.
  by rewrite (float_lt_not_le _ _ H), andb_false_r, H.
Qed.

Lemma creatinina_low c : (c <? 1.5) = true → pontos_creatinina c = 0%Z.
Proof.
  intros H. unfold pontos_creatinina.
  rewrite (float_lt_not_le _ _ H). simpl.
  destruct (2.5 <? c) eqn:H'; [|done].
  by pose proof (float_lt_le_trans _ _ _ H' (float_lt_le _ _ H)).
Qed.

(** Read backwards: a creatinine that is a number and scores nothing is
    below the lowest threshold. *)
Lemma creatinina_zero_low c :
  (c <=? c) = true → pontos_creatinina c = 0%Z → (c <? 1.5) = true.
Proof.
  intros Hc. unfold pontos_creatinina.
  destruct (1.5 <=? c) eqn:H1; simpl.
  - destruct (c <=? 2.5) eqn:H2; [done|].
    by rewrite (float_not_le_lt 2.5 c) by done.
  - intros _. by apply float_not_le_lt.
Qed.

Lemma isquemia_tier1 t :
  (12 <=? t) = true → (t <=? 20) = true → pontos_isquemia t = 15%Z.
Proof. intros H1 H2. unfold pontos_isquemia. by rewrite H1, H2. Qed.

Lemma isquemia_tier2 t :
  (21 <=? t) = true → (t <=? 28) = true → pontos_isquemia t = 25%Z.
Proof.
  intros H1 H2. unfold pontos_isquemia. rewrite H1, H2.
  destruct (t <=? 20) eqn:H3; [|by rewrite andb_false_r].
  by pose proof (float_le_trans _ _ _ H1 H3).
Qed.

Lemma isquemia_tier3 t : (28 <? t) = true → pontos_isquemia t = 35%Z.
Proof.
  intros H. unfold pontos_isquemia.
  rewrite (float_lt_not_le _ _ H), H, !andb_false_r.
  destruct (t <=? 20) eqn:H3; [|by rewrite andb_false_r].
  by pose proof (float_lt_le_trans _ _ _ H H3).
Qed.

Lemma isquemia_otherwise t :
  (12 <=? t) && (t <=? 20) = false →
  (21 <=? t) && (t <=? 28) = false →
  (28 <? t) = false →
  pontos_isquemia t = 0%Z.
Proof. intros H1 H2 H3. unfold pontos_isquemia. by rewrite H1, H2, H3. Qed.

Lemma isquemia_low t : (t <? 12) = true → pontos_isquemia t = 0%Z.
Proof.
  intros H. apply isquemia_otherwise.
  - by rewrite (float_lt_not_le _ _ H).
  - destruct (21 <=? t) eqn:H'; [|done].
    by pose proof (float_le_lt_trans _ _ _ H' H).
  - destruct (28 <? t) eqn:H'; [|done].
    by pose proof (float_lt_le_trans _ _ _ H' (float_lt_le _ _ H)).
Qed.

Lemma isquemia_gap t :
  (20 <? t) = true → (t <? 21) = true → pontos_isquemia t = 0%Z.
Proof.
  intros H1 H2. apply isquemia_otherwise.
  - by rewrite (float_lt_not_le _ _ H1), andb_false_r.
  - by rewrite (float_lt_not_le _ _ H2).
  - destruct (28 <? t) eqn:H'; [|done].
    by pose proof (float_lt_le_trans _ _ _ H' (float_lt_le _ _ H2)).
Qed.

(** Read backwards: an ischemia time that is a number and scores nothing is
    below twelve hours or inside the gap between the first two tiers. *)
Lemma isquemia_zero_low_or_gap t :
  (t <=? t) = true → pontos_isquemia t = 0%Z →
  (t <? 12) = true ∨ ((20 <? t) = true ∧ (t <? 21) = true).
Proof.
  intros Ht. unfold pontos_isquemia.
  destruct (12 <=? t) eqn:H1; simpl.
  - destruct (t <=? 20) eqn:H2; [done|].
    destruct (21 <=? t) eqn:H3; simpl.
    + destruct (t <=? 28) eqn:H4; [done|].
      by rewrite (float_not_le_lt 28 t) by done.
    + intros _. right. split; by apply float_not_le_lt.
  - intros _. left. by apply float_not_le_lt.
Qed.
End DecimalTiers.

Lemma idade_zero_iff idade : pontos_idade idade = 0 ↔ idade < 40.
Proof. unfold pontos_idade. repeat case_match; lia. Qed.

(** * The bands *)

Section Bands.
Implicit Types p q : float.
Open Scope float_scope.

Lemma classify_baixo p : (p <? 30) = true → classify p = RISCO_BAIXO.
Proof. intros H. unfold classify. by rewrite H. Qed.

Lemma classify_moderado p :
  (30 <=? p) = true → (p <? 60) = true → classify p = RISCO_MODERADO.
Proof.
  intros H1 H2. unfold classify.
  by rewrite (float_le_not_lt _ _ H1), H1, H2.
Qed.

Lemma classify_alto p : (60 <=? p) = true → classify p = RISCO_ALTO.
Proof.
  intros H. unfold classify.
  rewrite (float_le_not_lt _ _ H), andb_false_r.
  destruct (p <? 30) eqn:H'; [|done].
  by pose proof (float_le_lt_trans _ _ _ H H').
Qed.

Lemma classify_baixo_inv p : classify p = RISCO_BAIXO → (p <? 30) = true.
Proof. unfold classify. by repeat case_match. Qed.

Lemma classify_moderado_inv p :
  classify p = RISCO_MODERADO → (30 <=? p) = true ∧ (p <? 60) = true.
Proof.
  unfold classify. destruct (p <? 30); [done|].
  destruct (30 <=? p), (p <? 60); done.
Qed.

(** Only here does it matter that the percentage is a number: the last
    branch of the banner also takes a NaN. *)
Lemma classify_alto_inv p :
  (p <=? p) = true → classify p = RISCO_ALTO → (60 <=? p) = true.
Proof.
  intros Hp. unfold classify.
  destruct (p <? 30) eqn:H1; [done|].
  rewrite (float_not_lt_le p 30) by done. simpl.
  destruct (p <? 60) eqn:H2; [done|].
  intros _. by apply float_not_lt_le.
Qed.

Lemma classify_mono p q :
  (p <=? q) = true → (faixa_rank (classify p) ≤ faixa_rank (classify q))%Z.
Proof.
  intros Hpq.
  pose proof (float_le_refl_l _ _ Hpq) as Hp.
  destruct (classify q) eqn:Hq.
  - apply classify_baixo_inv in Hq.
    by rewrite (classify_baixo p) by eauto using float_le_lt_trans.
  - apply classify_moderado_inv in Hq as [_ Hq].
    pose proof (float_le_lt_trans _ _ _ Hpq Hq) as Hp60.
    destruct (p <? 30) eqn:Hp30.
    + by rewrite classify_baixo.
    + rewrite classify_moderado; [done| |done]. by apply float_not_lt_le.
  - destruct (classify p); simpl; lia.
Qed.
End Bands.

(** * The entry of each label *)

Section Labels.
Context (idade : Z) (creatinina : float) (has dm : bool)
  (tempo_isquemia : float) (pcr hcv : bool).

#[local] Abbreviation fatores :=
  (fatores_de_risco idade creatinina has dm tempo_isquemia pcr hcv).

#[local] Ltac pick_label :=
  rewrite fatores_lookup;
  repeat (rewrite bool_decide_eq_false_2 by done);
  rewrite bool_decide_eq_true_2 by done;
  rewrite ?andb_false_r, ?andb_true_r; reflexivity.

Lemma fatores_idade :
  fatores !! "Idade" =
  if 0 <? pontos_idade idade then Some (pontos_idade idade) else None.
Proof. pick_label. Qed.

Lemma fatores_creatinina :
  fatores !! "Creatinina" =
  if 0 <? pontos_creatinina creatinina
  then Some (pontos_creatinina creatinina) else None.
Proof. pick_label. Qed.

Lemma fatores_has : fatores !! "Hipertensão" = if has then Some 25 else None.
Proof. pick_label. Qed.

Lemma fatores_dm : fatores !! "Diabetes" = if dm then Some 30 else None.
Proof. pick_label. Qed.

Lemma fatores_isquemia :
  fatores !! "Tempo de Isquemia" =
  if 0 <? pontos_isquemia tempo_isquemia
  then Some (pontos_isquemia tempo_isquemia) else None.
Proof. pick_label. Qed.

Lemma fatores_pcr : fatores !! "PCR" = if pcr then Some 15 else None.
Proof. pick_label. Qed.

Lemma fatores_hcv : fatores !! "Hepatite C" = if hcv then Some 10 else None.
Proof. pick_label. Qed.
End Labels.

(** The division of the model can raise; the scorer's never does. *)
Lemma int_truediv_zero a : int_truediv a 0 = Raise ZeroDivisionError.
Proof. reflexivity. Qed.

Lemma int_truediv_ok a b :
  b ≠ 0 → int_truediv a b = Ok (float_of_int a / float_of_int b)%float.
Proof. intros Hb. unfold int_truediv. by rewrite (proj2 (Z.eqb_neq b 0) Hb). Qed.

(** * The properties of the specification *)

(** C1. For every in-domain donor profile the scorer returns, and the
    percentage it returns is the sum of the values of the returned
    contributions dictionary divided by 190 and multiplied by 100, computed
    as the source computes it (in binary64, the division first).  That sum
    is the sum of the points the seven factors awarded, and 190, the fixed
    maximum, is 40+35+25+30+35+15+10. *)
Theorem percentage_is_sum_over_190
    (idade : Z) (creatinina : float) (has dm : bool)
    (tempo_isquemia : float) (pcr hcv : bool) :
  in_domain idade creatinina tempo_isquemia = true →
  ∃ (score_percentual : float) (fatores_risco : gmap string Z),
    calcular_score_risco idade creatinina has dm tempo_isquemia pcr hcv
      = Ok (score_percentual, fatores_risco)
    ∧ score_percentual
      = (float_of_int (sum_values fatores_risco) / 190 * 100)%float
    ∧ sum_values fatores_risco
      = pontos_atribuidos idade creatinina has dm tempo_isquemia pcr hcv
    ∧ score_maximo_possivel = 40 + 35 + 25 + 30 + 35 + 15 + 10.
Proof.
  intros _. eexists _, _. split; [apply calcular_score_risco_eq|].
  split; [reflexivity|]. split; [apply sum_values_fatores | reflexivity].
Qed.

Lemma percentage_is_sum_over_190_witness :
  ∃ (score_percentual : float) (fatores_risco : gmap string Z),
    calcular_score_risco 55 1.2 true false 10 false false
      = Ok (score_percentual, fatores_risco)
    ∧ score_percentual
      = (float_of_int (sum_values fatores_risco) / 190 * 100)%float
    ∧ sum_values fatores_risco
      = pontos_atribuidos 55 1.2 true false 10 false false
    ∧ score_maximo_possivel = 40 + 35 + 25 + 30 + 35 + 15 + 10.
Proof.
  apply (percentage_is_sum_over_190 55 1.2 true false 10 false false).
  reflexivity.
Defined.

(** C2. For every in-domain donor profile (age in [0,120], creatinine in
    (0,15], ischemia time at least 0, any booleans) the scorer returns a
    percentage between 0 and 100, both included. *)
Theorem percentage_between_0_and_100
    (idade : Z) (creatinina : float) (has dm : bool)
    (tempo_isquemia : float) (pcr hcv : bool) :
  in_domain idade creatinina tempo_isquemia = true →
  ∃ (score_percentual : float) (fatores_risco : gmap string Z),
    calcular_score_risco idade creatinina has dm tempo_isquemia pcr hcv
      = Ok (score_percentual, fatores_risco)
    ∧ (0 <=? score_percentual)%float = true
    ∧ (score_percentual <=? 100)%float = true.
Proof.
  intros _. eexists _, _. split; [apply calcular_score_risco_eq|].
  apply percentual_range, score_bruto_range.
Qed.

Lemma percentage_between_0_and_100_witness :
  ∃ (score_percentual : float) (fatores_risco : gmap string Z),
    calcular_score_risco 65 3.0 true true 30 true true
      = Ok (score_percentual, fatores_risco)
    ∧ (0 <=? score_percentual)%float = true
    ∧ (score_percentual <=? 100)%float = true.
Proof.
  apply (percentage_between_0_and_100 65 3.0 true true 30 true true).
  reflexivity.
Defined.

(** C3. The age factor awards points by tiers that include both their ends:
    39 gives 0; 40 and 49 give 15; 50 and 59 give 25; 60 and 99 give 40; any
    age below 40 gives 0.  An award that is not zero is the entry of the
    returned dictionary under "Idade", and a zero award leaves no entry. *)
Theorem age_tiers
    (idade : Z) (creatinina : float) (has dm : bool)
    (tempo_isquemia : float) (pcr hcv : bool) :
  (pontos_idade 39 = 0 ∧ pontos_idade 40 = 15 ∧ pontos_idade 49 = 15
   ∧ pontos_idade 50 = 25 ∧ pontos_idade 59 = 25
   ∧ pontos_idade 60 = 40 ∧ pontos_idade 99 = 40)
  ∧ (idade < 40 → pontos_idade idade = 0)
  ∧ (40 ≤ idade ≤ 49 → pontos_idade idade = 15)
  ∧ (50 ≤ idade ≤ 59 → pontos_idade idade = 25)
  ∧ (60 ≤ idade → pontos_idade idade = 40)
  ∧ ∃ (score_percentual : float) (fatores_risco : gmap string Z),
      calcular_score_risco idade creatinina has dm tempo_isquemia pcr hcv
        = Ok (score_percentual, fatores_risco)
      ∧ (pontos_idade idade ≠ 0 →
         fatores_risco !! "Idade" = Some (pontos_idade idade))
      ∧ (pontos_idade idade = 0 → fatores_risco !! "Idade" = None).
Proof.
  split; [by repeat split|].
  repeat split; try (unfold pontos_idade; repeat case_match; lia).
  eexists _, _. split; [apply calcular_score_risco_eq|].
  rewrite fatores_idade. pose proof (pontos_idade_cases idade).
  split; intros; case_match; try done; lia.
Qed.

Lemma age_tiers_witness :
  pontos_idade 45 = 15 ∧ pontos_idade 55 = 25 ∧ pontos_idade 70 = 40
  ∧ pontos_idade 18 = 0.
Proof.
  split; [|split; [|split]].
  - destruct (age_tiers 45 1.0 false false 5 false false)
      as (_ & _ & H & _). apply H. lia.
  - destruct (age_tiers 55 1.0 false false 5 false false)
      as (_ & _ & _ & H & _). apply H. lia.
  - destruct (age_tiers 70 1.0 false false 5 false false)
      as (_ & _ & _ & _ & H & _). apply H. lia.
  - destruct (age_tiers 18 1.0 false false 5 false false)
      as (_ & H & _). apply H. lia.
Defined.

(** C4. The serum-creatinine factor awards 20 points on the closed interval
    [1.5, 2.5] (so exactly 2.5 gives 20, not 35), 35 points strictly above
    2.5 and 0 below 1.5 (for instance at 1.49).  An award that is not zero is
    the entry of the returned dictionary under "Creatinina", and a zero
    award leaves no entry. *)
Theorem creatinine_tiers
    (idade : Z) (creatinina : float) (has dm : bool)
    (tempo_isquemia : float) (pcr hcv : bool) :
  (pontos_creatinina 1.49 = 0 ∧ pontos_creatinina 1.5 = 20
   ∧ pontos_creatinina 2.5 = 20 ∧ pontos_creatinina 2.51 = 35)
  ∧ ((1.5 <=? creatinina)%float = true → (creatinina <=? 2.5)%float = true →
     pontos_creatinina creatinina = 20)
  ∧ ((2.5 <? creatinina)%float = true → pontos_creatinina creatinina = 35)
  ∧ ((creatinina <? 1.5)%float = true → pontos_creatinina creatinina = 0)
  ∧ ∃ (score_percentual : float) (fatores_risco : gmap string Z),
      calcular_score_risco idade creatinina has dm tempo_isquemia pcr hcv
        = Ok (score_percentual, fatores_risco)
      ∧ (pontos_creatinina creatinina ≠ 0 →
         fatores_risco !! "Creatinina" = Some (pontos_creatinina creatinina))
      ∧ (pontos_creatinina creatinina = 0 →
         fatores_risco !! "Creatinina" = None).
Proof.
  split; [by repeat split|].
  split; [apply creatinina_mid|]. split; [apply creatinina_high|].
  split; [apply creatinina_low|].
  eexists _, _. split; [apply calcular_score_risco_eq|].
  rewrite fatores_creatinina. pose proof (pontos_creatinina_cases creatinina).
  split; intros; case_match; try done; lia.
Qed.

Lemma creatinine_tiers_witness :
  pontos_creatinina 2.0 = 20 ∧ pontos_creatinina 4.0 = 35
  ∧ pontos_creatinina 0.75 = 0.
Proof.
  split; [|split].
  - destruct (creatinine_tiers 30 2.0 false false 5 false false)
      as (_ & H & _). apply H; reflexivity.
  - destruct (creatinine_tiers 30 4.0 false false 5 false false)
      as (_ & _ & H & _). apply H. reflexivity.
  - destruct (creatinine_tiers 30 0.75 false false 5 false false)
      as (_ & _ & _ & H & _). apply H. reflexivity.
Defined.

(** C5. The cold-ischemia factor awards 15 points on [12, 20], 25 points on
    [21, 28], 35 points strictly above 28 and 0 otherwise, in particular at
    11.  An award that is not zero is the entry of the returned dictionary
    under "Tempo de Isquemia", and a zero award leaves no entry. *)
Theorem ischemia_tiers
    (idade : Z) (creatinina : float) (has dm : bool)
    (tempo_isquemia : float) (pcr hcv : bool) :
  (pontos_isquemia 11 = 0 ∧ pontos_isquemia 12 = 15 ∧ pontos_isquemia 20 = 15
   ∧ pontos_isquemia 21 = 25 ∧ pontos_isquemia 28 = 25
   ∧ pontos_isquemia 29 = 35)
  ∧ ((12 <=? tempo_isquemia)%float = true →
     (tempo_isquemia <=? 20)%float = true →
     pontos_isquemia tempo_isquemia = 15)
  ∧ ((21 <=? tempo_isquemia)%float = true →
     (tempo_isquemia <=? 28)%float = true →
     pontos_isquemia tempo_isquemia = 25)
  ∧ ((28 <? tempo_isquemia)%float = true → pontos_isquemia tempo_isquemia = 35)
  ∧ (((12 <=? tempo_isquemia) && (tempo_isquemia <=? 20))%float = false →
     ((21 <=? tempo_isquemia) && (tempo_isquemia <=? 28))%float = false →
     (28 <? tempo_isquemia)%float = false →
     pontos_isquemia tempo_isquemia = 0)
  ∧ ((tempo_isquemia <? 12)%float = true → pontos_isquemia tempo_isquemia = 0)
  ∧ ∃ (score_percentual : float) (fatores_risco : gmap string Z),
      calcular_score_risco idade creatinina has dm tempo_isquemia pcr hcv
        = Ok (score_percentual, fatores_risco)
      ∧ (pontos_isquemia tempo_isquemia ≠ 0 →
         fatores_risco !! "Tempo de Isquemia"
           = Some (pontos_isquemia tempo_isquemia))
      ∧ (pontos_isquemia tempo_isquemia = 0 →
         fatores_risco !! "Tempo de Isquemia" = None).
Proof.
  split; [by repeat split|].
  split; [apply isquemia_tier1|]. split; [apply isquemia_tier2|].
  split; [apply isquemia_tier3|]. split; [apply isquemia_otherwise|].
  split; [apply isquemia_low|].
  eexists _, _. split; [apply calcular_score_risco_eq|].
  rewrite fatores_isquemia. pose proof (pontos_isquemia_cases tempo_isquemia).
  split; intros; case_match; try done; lia.
Qed.

Lemma ischemia_tiers_witness :
  pontos_isquemia 16 = 15 ∧ pontos_isquemia 24.5 = 25
  ∧ pontos_isquemia 48 = 35 ∧ pontos_isquemia 3 = 0.
Proof.
  split; [|split; [|split]].
  - destruct (ischemia_tiers 30 1.0 false false 16 false false)
      as (_ & H & _). apply H; reflexivity.
  - destruct (ischemia_tiers 30 1.0 false false 24.5 false false)
      as (_ & _ & H & _). apply H; reflexivity.
  - destruct (ischemia_tiers 30 1.0 false false 48 false false)
      as (_ & _ & _ & H & _). apply H. reflexivity.
  - destruct (ischemia_tiers 30 1.0 false false 3 false false)
      as (_ & _ & _ & _ & _ & H & _). apply H. reflexivity.
Defined.

(** C6. For every in-domain donor profile these three say the same: the
    returned percentage equals 0; the returned contributions dictionary is
    empty; every one of the seven factors is in its zero-point tier or
    false.  The zero-point tier is read on the inputs, as the values that
    meet none of the listed tiers: an age below 40, a creatinine below 1.5,
    an ischemia time below 12 or strictly between 20 and 21.  These are the
    inputs for which the three tiered factors award 0. *)
Theorem zero_percentage_iff_empty_iff_no_factor
    (idade : Z) (creatinina : float) (has dm : bool)
    (tempo_isquemia : float) (pcr hcv : bool) :
  in_domain idade creatinina tempo_isquemia = true →
  ∃ (score_percentual : float) (fatores_risco : gmap string Z),
    calcular_score_risco idade creatinina has dm tempo_isquemia pcr hcv
      = Ok (score_percentual, fatores_risco)
    ∧ ((score_percentual =? 0)%float = true ↔ fatores_risco = ∅)
    ∧ (fatores_risco = ∅ ↔
       idade < 40 ∧ (creatinina <? 1.5)%float = true
       ∧ has = false ∧ dm = false
       ∧ ((tempo_isquemia <? 12)%float = true
          ∨ ((20 <? tempo_isquemia)%float = true
             ∧ (tempo_isquemia <? 21)%float = true))
       ∧ pcr = false ∧ hcv = false)
    ∧ (fatores_risco = ∅ ↔
       pontos_idade idade = 0 ∧ pontos_creatinina creatinina = 0
       ∧ has = false ∧ dm = false
       ∧ pontos_isquemia tempo_isquemia = 0 ∧ pcr = false ∧ hcv = false).
Proof.
  unfold in_domain. intros H.
  apply andb_prop in H as [H Ht]. apply andb_prop in H as [H Hc].
  apply float_le_refl_l in Hc. apply float_le_refl_r in Ht.
  eexists _, _. split; [apply calcular_score_risco_eq|].
  split; [|split; [|apply fatores_empty_iff]].
  - rewrite percentual_zero by apply score_bruto_range.
    rewrite sum_values_fatores, pontos_zero_iff. symmetry.
    apply fatores_empty_iff.
  - rewrite fatores_empty_iff, idade_zero_iff. split.
    + intros (Hi & Hc0 & -> & -> & Ht0 & -> & ->).
      split; [done|]. split; [by apply creatinina_zero_low|].
      split; [done|]. split; [done|].
      split; [by apply isquemia_zero_low_or_gap | done].
    + intros (Hi & Hc0 & -> & -> & Ht0 & -> & ->).
      split; [done|]. split; [by apply creatinina_low|].
      split; [done|]. split; [done|]. split; [|done].
      destruct Ht0 as [?|[]]; [by apply isquemia_low | by apply isquemia_gap].
Qed.

Lemma zero_percentage_iff_empty_iff_no_factor_witness :
  (∃ (score_percentual : float) (fatores_risco : gmap string Z),
     calcular_score_risco 30 1.0 false false 20.5 false false
       = Ok (score_percentual, fatores_risco)
     ∧ ((score_percentual =? 0)%float = true ↔ fatores_risco = ∅)
     ∧ (fatores_risco = ∅ ↔
        30 < 40 ∧ (1.0 <? 1.5)%float = true
        ∧ false = false ∧ false = false
        ∧ ((20.5 <? 12)%float = true
           ∨ ((20 <? 20.5)%float = true ∧ (20.5 <? 21)%float = true))
        ∧ false = false ∧ false = false)
     ∧ (fatores_risco = ∅ ↔
        pontos_idade 30 = 0 ∧ pontos_creatinina 1.0 = 0
        ∧ false = false ∧ false = false
        ∧ pontos_isquemia 20.5 = 0 ∧ false = false ∧ false = false))
  ∧ (∃ (score_percentual : float) (fatores_risco : gmap string Z),
       calcular_score_risco 65 1.0 false false 5 false false
         = Ok (score_percentual, fatores_risco)
       ∧ ((score_percentual =? 0)%float = true ↔ fatores_risco = ∅)
       ∧ (fatores_risco = ∅ ↔
          65 < 40 ∧ (1.0 <? 1.5)%float = true
          ∧ false = false ∧ false = false
          ∧ ((5 <? 12)%float = true
             ∨ ((20 <? 5)%float = true ∧ (5 <? 21)%float = true))
          ∧ false = false ∧ false = false)
       ∧ (fatores_risco = ∅ ↔
          pontos_idade 65 = 0 ∧ pontos_creatinina 1.0 = 0
          ∧ false = false ∧ false = false
          ∧ pontos_isquemia 5 = 0 ∧ false = false ∧ false = false)).
Proof.
  split.
  - apply (zero_percentage_iff_empty_iff_no_factor
             30 1.0 false false 20.5 false false).
    reflexivity.
  - apply (zero_percentage_iff_empty_iff_no_factor
             65 1.0 false false 5 false false).
    reflexivity.
Defined.

(** C7. For every in-domain donor profile every value of the returned
    contributions dictionary is strictly positive; a flag that is false
    (hypertension, diabetes, cardiac arrest, HCV) leaves no entry at all
    under its label, so never an entry with value 0. *)
Theorem contributions_are_positive
    (idade : Z) (creatinina : float) (has dm : bool)
    (tempo_isquemia : float) (pcr hcv : bool) :
  in_domain idade creatinina tempo_isquemia = true →
  ∃ (score_percentual : float) (fatores_risco : gmap string Z),
    calcular_score_risco idade creatinina has dm tempo_isquemia pcr hcv
      = Ok (score_percentual, fatores_risco)
    ∧ (∀ (k : string) (v : Z), fatores_risco !! k = Some v → 0 < v)
    ∧ (has = false → fatores_risco !! "Hipertensão" = None)
    ∧ (dm = false → fatores_risco !! "Diabetes" = None)
    ∧ (pcr = false → fatores_risco !! "PCR" = None)
    ∧ (hcv = false → fatores_risco !! "Hepatite C" = None).
Proof.
  intros _. eexists _, _. split; [apply calcular_score_risco_eq|].
  split; [apply fatores_positive|].
  rewrite fatores_has, fatores_dm, fatores_pcr, fatores_hcv.
  by repeat split; intros ->.
Qed.

Lemma contributions_are_positive_witness :
  ∃ (score_percentual : float) (fatores_risco : gmap string Z),
    calcular_score_risco 55 1.2 true false 10 false false
      = Ok (score_percentual, fatores_risco)
    ∧ (∀ (k : string) (v : Z), fatores_risco !! k = Some v → 0 < v)
    ∧ (true = false → fatores_risco !! "Hipertensão" = None)
    ∧ (false = false → fatores_risco !! "Diabetes" = None)
    ∧ (false = false → fatores_risco !! "PCR" = None)
    ∧ (false = false → fatores_risco !! "Hepatite C" = None).
Proof.
  apply (contributions_are_positive 55 1.2 true false 10 false false).
  reflexivity.
Defined.

(** C8. The banner sends every percentage below 30 to the low band, every
    percentage from 30 up to but not including 60 to the moderate band, and
    every percentage from 60 on to the high band.  It is monotonic, and on
    [0,100] the bands are exactly the three adjacent intervals [0,30),
    [30,60) and [60,100], which share no point and leave none out. *)
Theorem classify_bands (p q : float) :
  ((p <? 30)%float = true → classify p = RISCO_BAIXO)
  ∧ ((30 <=? p)%float = true → (p <? 60)%float = true →
     classify p = RISCO_MODERADO)
  ∧ ((60 <=? p)%float = true → classify p = RISCO_ALTO)
  ∧ ((p <=? q)%float = true →
     faixa_rank (classify p) ≤ faixa_rank (classify q))
  ∧ ((0 <=? p)%float = true → (p <=? 100)%float = true →
     (classify p = RISCO_BAIXO ↔ (p <? 30)%float = true)
     ∧ (classify p = RISCO_MODERADO ↔
        (30 <=? p)%float = true ∧ (p <? 60)%float = true)
     ∧ (classify p = RISCO_ALTO ↔ (60 <=? p)%float = true)).
Proof.
  split; [apply classify_baixo|]. split; [apply classify_moderado|].
  split; [apply classify_alto|]. split; [apply classify_mono|].
  intros Hp _. apply float_le_refl_r in Hp.
  split; [|split]; split.
  - apply classify_baixo_inv.
  - apply classify_baixo.
  - apply classify_moderado_inv.
  - intros []. by apply classify_moderado.
  - by apply classify_alto_inv.
  - apply classify_alto.
Qed.

Lemma classify_bands_witness :
  classify 12.5 = RISCO_BAIXO ∧ classify 30 = RISCO_MODERADO
  ∧ classify 60 = RISCO_ALTO
  ∧ faixa_rank (classify 29.5) ≤ faixa_rank (classify 30)
  ∧ (classify 45 = RISCO_MODERADO ↔
     (30 <=? 45)%float = true ∧ (45 <? 60)%float = true).
Proof.
  split; [|split; [|split; [|split]]].
  - destruct (classify_bands 12.5 12.5) as (H & _). by apply H.
  - destruct (classify_bands 30 30) as (_ & H & _). by apply H.
  - destruct (classify_bands 60 60) as (_ & _ & H & _). by apply H.
  - destruct (classify_bands 29.5 30) as (_ & _ & _ & H & _). by apply H.
  - destruct (classify_bands 45 45) as (_ & _ & _ & _ & H).
    by apply H.
Defined.

(** C9. The scorer is total on its declared domain: for every in-domain
    donor profile it returns a percentage and a dictionary, it raises no
    exception, and its one division is by the constant 190, which is not
    zero. *)
Theorem score_is_total
    (idade : Z) (creatinina : float) (has dm : bool)
    (tempo_isquemia : float) (pcr hcv : bool) :
  in_domain idade creatinina tempo_isquemia = true →
  (∃ (score_percentual : float) (fatores_risco : gmap string Z),
     calcular_score_risco idade creatinina has dm tempo_isquemia pcr hcv
       = Ok (score_percentual, fatores_risco))
  ∧ (∀ e : exception,
       calcular_score_risco idade creatinina has dm tempo_isquemia pcr hcv
         ≠ Raise e)
  ∧ score_maximo_possivel ≠ 0.
Proof.
  intros _. rewrite calcular_score_risco_eq. split; [by eexists _, _|].
  split; [by intros e | done].
Qed.

Lemma score_is_total_witness :
  (∃ (score_percentual : float) (fatores_risco : gmap string Z),
     calcular_score_risco 120 15 true true 72 true true
       = Ok (score_percentual, fatores_risco))
  ∧ (∀ e : exception,
       calcular_score_risco 120 15 true true 72 true true ≠ Raise e)
  ∧ score_maximo_possivel ≠ 0.
Proof.
  apply (score_is_total 120 15 true true 72 true true). reflexivity.
Defined.

(** C10. An ischemia time strictly between 20 and 21 (20.5, say) meets no
    tier: the factor awards 0 and the returned dictionary has no entry under
    "Tempo de Isquemia", although 20 and 21 themselves both score. *)
Theorem ischemia_gap_scores_nothing
    (idade : Z) (creatinina : float) (has dm : bool)
    (tempo_isquemia : float) (pcr hcv : bool) :
  (20 <? tempo_isquemia)%float = true →
  (tempo_isquemia <? 21)%float = true →
  pontos_isquemia tempo_isquemia = 0
  ∧ (∃ (score_percentual : float) (fatores_risco : gmap string Z),
       calcular_score_risco idade creatinina has dm tempo_isquemia pcr hcv
         = Ok (score_percentual, fatores_risco)
       ∧ fatores_risco !! "Tempo de Isquemia" = None)
  ∧ pontos_isquemia 20 = 15 ∧ pontos_isquemia 21 = 25.
Proof.
  intros H1 H2. pose proof (isquemia_gap _ H1 H2) as H0.
  split; [done|]. split; [|done].
  eexists _, _. split; [apply calcular_score_risco_eq|].
  by rewrite fatores_isquemia, H0.
Qed.

Lemma ischemia_gap_scores_nothing_witness :
  pontos_isquemia 20.5 = 0
  ∧ (∃ (score_percentual : float) (fatores_risco : gmap string Z),
       calcular_score_risco 50 1.2 false false 20.5 false false
         = Ok (score_percentual, fatores_risco)
       ∧ fatores_risco !! "Tempo de Isquemia" = None)
  ∧ pontos_isquemia 20 = 15 ∧ pontos_isquemia 21 = 25.
Proof.
  apply (ischemia_gap_scores_nothing 50 1.2 false false 20.5 false false);
    reflexivity.
Defined.

(** * Further properties of the scorer *)

(** The all-false, minimal profile of the specification (age 30, creatinine
    1.0, ischemia 5 hours, no flag): percentage 0, no contribution, low
    band. *)
Theorem minimal_profile :
  calcular_score_risco 30 1.0 false false 5 false false = Ok (0%float, ∅)
  ∧ classify 0 = RISCO_BAIXO.
Proof. split; reflexivity. Qed.

(** The worst-case profile of the specification: every factor in its highest
    tier, raw score 190, percentage 100, high band. *)
Theorem worst_case_profile :
  calcular_score_risco 65 3.0 true true 30 true true
    = Ok (100%float,
          list_to_map [("Idade", 40); ("Creatinina", 35); ("Hipertensão", 25);
                       ("Diabetes", 30); ("Tempo de Isquemia", 35);
                       ("PCR", 15); ("Hepatite C", 10)])
  ∧ pontos_atribuidos 65 3.0 true true 30 true true = score_maximo_possivel
  ∧ classify 100 = RISCO_ALTO.
Proof. split; [|split]; reflexivity. Qed.

(** The moderate example of the specification: age 55 and hypertension give
    a raw score of 50, a percentage of 50/190*100 (between 26.3 and 26.4)
    and the low band. *)
Theorem moderate_profile :
  calcular_score_risco 55 1.2 true false 10 false false
    = Ok (percentual 50, list_to_map [("Idade", 25); ("Hipertensão", 25)])
  ∧ (26.3 <? percentual 50)%float = true
  ∧ (percentual 50 <? 26.4)%float = true
  ∧ classify (percentual 50) = RISCO_BAIXO.
Proof. split; [|split; [|split]]; reflexivity. Qed.

Lemma drift_within_all :
  forallb (drift_within (1 # 2 ^ 46)) (map Z.of_nat (seq 0 191)) = true.
Proof. vm_compute. reflexivity. Qed.

Lemma drift_within_range s :
  0 ≤ s ≤ 190 → drift_within (1 # 2 ^ 46) s = true.
Proof.
  intros Hs. pose proof drift_within_all as Hall.
  rewrite forallb_forall in Hall. apply Hall.
  apply in_map_iff. exists (Z.to_nat s). split; [lia|].
  apply in_seq. lia.
Qed.

(** The returned percentage is a finite number, and it differs from the
    rational 100 * rawSum / 190 by at most 2^-46, the spacing of binary64
    numbers just below 100: the two roundings of line 82 do not add up to
    more. *)
Theorem percentage_rounding_drift
    (idade : Z) (creatinina : float) (has dm : bool)
    (tempo_isquemia : float) (pcr hcv : bool) :
  ∃ (score_percentual : float) (fatores_risco : gmap string Z) (v : Q),
    calcular_score_risco idade creatinina has dm tempo_isquemia pcr hcv
      = Ok (score_percentual, fatores_risco)
    ∧ float_value score_percentual = Some v
    ∧ (Qabs (v - (100 * sum_values fatores_risco # 190)) <= 1 # 2 ^ 46)%Q.
Proof.
  pose proof (drift_within_range _
    (score_bruto_range idade creatinina has dm tempo_isquemia pcr hcv)) as H.
  unfold drift_within in H.
  destruct (float_value (percentual _)) as [v|] eqn:Hv; [|done].
  eexists _, _, v. split; [apply calcular_score_risco_eq|].
  split; [done|]. by apply Qle_bool_iff.
Qed.

(** Every key of the returned dictionary is one of the seven labels. *)
Theorem contribution_labels
    (idade : Z) (creatinina : float) (has dm : bool)
    (tempo_isquemia : float) (pcr hcv : bool) :
  ∃ (score_percentual : float) (fatores_risco : gmap string Z),
    calcular_score_risco idade creatinina has dm tempo_isquemia pcr hcv
      = Ok (score_percentual, fatores_risco)
    ∧ dom fatores_risco ⊆ rotulos.
Proof.
  eexists _, _. split; [apply calcular_score_risco_eq|].
  intros k [v Hv]%elem_of_dom. rewrite fatores_lookup in Hv.
  unfold rotulos.
  repeat (case_match; [
    match goal with H : _ && bool_decide _ = true |- _ =>
      apply andb_prop in H as [_ ->%bool_decide_eq_true_1]; set_solver end |]).
  done.
Qed.

(** The zero-point tiers read on the inputs: an age scores nothing exactly
    when it is below 40; an in-domain creatinine exactly when it is below
    1.5; an in-domain ischemia time exactly when it is below 12 or strictly
    between 20 and 21. *)
Theorem zero_tiers_on_inputs (idade : Z) (creatinina tempo_isquemia : float) :
  in_domain idade creatinina tempo_isquemia = true →
  (pontos_idade idade = 0 ↔ idade < 40)
  ∧ (pontos_creatinina creatinina = 0 ↔ (creatinina <? 1.5)%float = true)
  ∧ (pontos_isquemia tempo_isquemia = 0 ↔
     (tempo_isquemia <? 12)%float = true
     ∨ ((20 <? tempo_isquemia)%float = true
        ∧ (tempo_isquemia <? 21)%float = true)).
Proof.
  unfold in_domain. intros H.
  apply andb_prop in H as [H Ht]. apply andb_prop in H as [H Hc].
  apply float_le_refl_l in Hc. apply float_le_refl_r in Ht.
  split; [apply idade_zero_iff|]. split; split.
  - by apply creatinina_zero_low.
  - apply creatinina_low.
  - by apply isquemia_zero_low_or_gap.
  - intros [?|[]]; [by apply isquemia_low | by apply isquemia_gap].
Qed.

Lemma zero_tiers_on_inputs_witness :
  (pontos_idade 30 = 0 ↔ 30 < 40)
  ∧ (pontos_creatinina 1.0 = 0 ↔ (1.0 <? 1.5)%float = true)
  ∧ (pontos_isquemia 20.5 = 0 ↔
     (20.5 <? 12)%float = true
     ∨ ((20 <? 20.5)%float = true ∧ (20.5 <? 21)%float = true)).
Proof. apply (zero_tiers_on_inputs 30 1.0 20.5). reflexivity. Defined.

(** The scorer returns for every input of its types, in the declared domain
    or outside it (a negative age, a NaN creatinine): it validates nothing
    and has no way to fail. *)
Theorem score_never_raises
    (idade : Z) (creatinina : float) (has dm : bool)
    (tempo_isquemia : float) (pcr hcv : bool) :
  ∃ (score_percentual : float) (fatores_risco : gmap string Z),
    calcular_score_risco idade creatinina has dm tempo_isquemia pcr hcv
      = Ok (score_percentual, fatores_risco).
Proof. eexists _, _. apply calcular_score_risco_eq. Qed.

(** Read backwards, the relation between percentage and raw score is not
    exact in binary64: for the profile whose only factor is a positive HCV
    serology (raw score 10), the returned percentage times 190 divided by
    100 is not 10. *)
Theorem backwards_reading_rounds :
  ∃ (score_percentual : float) (fatores_risco : gmap string Z),
    calcular_score_risco 30 1.0 false false 5 false true
      = Ok (score_percentual, fatores_risco)
    ∧ sum_values fatores_risco = 10
    ∧ (score_percentual * 190 / 100 =? 10)%float = false.
Proof. eexists _, _. split; [apply calcular_score_risco_eq|]. by split. Qed.

(** * The page *)

Lemma mostrado_ok_all : forallb mostrado_ok (map Z.of_nat (seq 0 191)) = true.
Proof. vm_compute. reflexivity. Qed.

Lemma horas_ok_all : forallb horas_ok (map Z.of_nat (seq 0 73)) = true.
Proof. vm_compute. reflexivity. Qed.

Lemma forallb_range (f : Z → bool) (n : nat) (s : Z) :
  forallb f (map Z.of_nat (seq 0 n)) = true → 0 ≤ s < Z.of_nat n → f s = true.
Proof.
  intros Hall Hs. rewrite forallb_forall in Hall. apply Hall.
  apply in_map_iff. exists (Z.to_nat s). split; [lia|].
  apply in_seq. lia.
Qed.

Lemma mostrado_ok_range s : 0 ≤ s ≤ 190 → mostrado_ok s = true.
Proof. intros Hs. apply (forallb_range _ _ _ mostrado_ok_all). lia. Qed.

Lemma horas_ok_range h : 0 ≤ h ≤ 72 → horas_ok h = true.
Proof. intros Hh. apply (forallb_range _ _ _ horas_ok_all). lia. Qed.

Section Mostrado.
Context (s : Z) (Hs : 0 ≤ s ≤ 190).

#[local] Ltac ok_conjunct :=
  let H := fresh in
  pose proof (mostrado_ok_range s Hs) as H; unfold mostrado_ok in H;
  repeat (let H' := fresh in apply andb_prop in H as [H H']);
  repeat match goal with
  | H : Bool.eqb _ _ = true |- _ => apply Bool.eqb_prop in H
  | H : String.eqb _ _ = true |- _ => apply String.eqb_eq in H
  end.

Lemma format_percentual :
  format_0f (percentual s) = pretty (percentual_inteiro s).
Proof. ok_conjunct. done. Qed.

Lemma percentual_lt_succ : (percentual s <? percentual (s + 1))%float = true.
Proof. ok_conjunct. done. Qed.

Lemma percentual_lt_30 :
  (percentual s <? 30)%float = (percentual_inteiro s <? 30).
Proof. ok_conjunct. done. Qed.

Lemma percentual_lt_60 :
  (percentual s <? 60)%float = (percentual_inteiro s <? 60).
Proof. ok_conjunct. done. Qed.

Lemma percentual_eq_100 : (percentual s =? 100)%float = (s =? 190).
Proof. ok_conjunct. done. Qed.

Lemma percentual_eq_30 : (percentual s =? 30)%float = (s =? 57).
Proof. ok_conjunct. done. Qed.

Lemma percentual_eq_60 : (percentual s =? 60)%float = (s =? 114).
Proof. ok_conjunct. done. Qed.

Lemma percentual_number : (percentual s <=? percentual s)%float = true.
Proof. eapply float_le_refl_r, percentual_range, Hs. Qed.
End Mostrado.

Lemma percentual_strict_mono s1 s2 :
  0 ≤ s1 → s1 < s2 → s2 ≤ 190 →
  (percentual s1 <? percentual s2)%float = true.
Proof.
  intros H1 H12 H2.
  replace s2 with (s1 + 1 + Z.of_nat (Z.to_nat (s2 - s1 - 1))) in * by lia.
  induction (Z.to_nat (s2 - s1 - 1)) as [|n IH].
  - rewrite Z.add_0_r. apply percentual_lt_succ. lia.
  - eapply float_lt_le_trans; [apply IH; lia|].
    apply float_lt_le.
    replace (s1 + 1 + Z.of_nat (S n)) with (s1 + 1 + Z.of_nat n + 1) by lia.
    apply percentual_lt_succ. lia.
Qed.

Lemma percentual_mono s1 s2 :
  0 ≤ s1 → s1 ≤ s2 → s2 ≤ 190 →
  (percentual s1 <=? percentual s2)%float = true.
Proof.
  intros H1 H12 H2. destruct (decide (s1 = s2)) as [->|].
  - apply percentual_number. lia.
  - apply float_lt_le, percentual_strict_mono; lia.
Qed.

(** The seven awards are multiples of five; 57 and 114, the raw scores of
    the two boundaries, are not. *)
Lemma pontos_atribuidos_multiple idade creatinina has dm tempo_isquemia pcr hcv :
  ∃ k, pontos_atribuidos idade creatinina has dm tempo_isquemia pcr hcv = 5 * k.
Proof.
  unfold pontos_atribuidos.
  destruct (pontos_idade_cases idade) as [->|[->|[->| ->]]],
    (pontos_creatinina_cases creatinina) as [->|[->| ->]],
    (pontos_isquemia_cases tempo_isquemia) as [->|[->|[->| ->]]];
    destruct has, dm, pcr, hcv; eexists; simpl;
    match goal with |- ?n = _ => instantiate (1 := n / 5) end; reflexivity.
Qed.

Lemma pontos_idade_mono a b : a ≤ b → pontos_idade a ≤ pontos_idade b.
Proof. unfold pontos_idade. repeat case_match; lia. Qed.

Lemma pontos_isquemia_horas_mono a b :
  a ≤ b → pontos_isquemia_horas a ≤ pontos_isquemia_horas b.
Proof. unfold pontos_isquemia_horas. repeat case_match; lia. Qed.

Lemma creatinina_35_inv c :
  pontos_creatinina c = 35 → (2.5 <? c)%float = true.
Proof. unfold pontos_creatinina. by repeat case_match. Qed.

Lemma creatinina_20_inv c :
  pontos_creatinina c = 20 →
  (1.5 <=? c)%float = true ∧ (c <=? 2.5)%float = true.
Proof.
  unfold pontos_creatinina.
  destruct (1.5 <=? c)%float, (c <=? 2.5)%float; simpl;
    by repeat case_match.
Qed.

Lemma isquemia_35_inv t : pontos_isquemia t = 35 → (28 <? t)%float = true.
Proof. unfold pontos_isquemia. by repeat case_match. Qed.

Lemma pontos_creatinina_mono c1 c2 :
  (c1 <=? c2)%float = true → pontos_creatinina c1 ≤ pontos_creatinina c2.
Proof.
  intros H12.
  destruct (pontos_creatinina_cases c2) as [H2|[H2|H2]]; rewrite H2.
  - apply creatinina_zero_low in H2; [|by eapply float_le_refl_r].
    by rewrite (creatinina_low c1) by eauto using float_le_lt_trans.
  - destruct (pontos_creatinina_cases c1) as [->|[->|H1]]; [done..|].
    exfalso. apply creatinina_35_inv in H1.
    apply creatinina_20_inv in H2 as [_ H2].
    by pose proof (float_lt_le_trans _ _ _ H1 (float_le_trans _ _ _ H12 H2)).
  - destruct (pontos_creatinina_cases c1) as [->|[->| ->]]; done.
Qed.

Lemma pontos_isquemia_horas_zero h : pontos_isquemia_horas h = 0 ↔ h < 12.
Proof. unfold pontos_isquemia_horas. repeat case_match; lia. Qed.

(** * Further properties: the page and the scorer together *)

(** Whatever the sidebar hands over lies in the declared domain of the
    scorer: ages 0 to 100, creatinine 0.1 to 10.0 and whole hours 0 to 72
    are ages 0 to 120, creatinine in (0,15] and a time of at least 0. *)
Theorem sidebar_in_domain
    (idade : Z) (creatinina : float) (tempo_isquemia : Z)
    (has dm pcr hcv : string) :
  sidebar idade creatinina tempo_isquemia has dm pcr hcv = true →
  in_domain idade creatinina (float_of_int tempo_isquemia) = true.
Proof.
  unfold sidebar, in_domain. intros H.
  repeat (let H' := fresh in apply andb_prop in H as [H H']).
  repeat match goal with
  | H : (_ <=? _)%Z = true |- _ => apply Z.leb_le in H
  end.
  repeat (apply andb_true_intro; split); try (apply Z.leb_le; lia).
  - by eapply float_lt_le_trans; [|eassumption].
  - by eapply float_le_trans; [eassumption|].
  - pose proof (horas_ok_range tempo_isquemia ltac:(lia)) as Hh.
    unfold horas_ok in Hh. by apply andb_prop in Hh as [_ Hh].
Qed.

Lemma sidebar_in_domain_witness :
  in_domain 50 1.2 (float_of_int 18) = true.
Proof.
  apply (sidebar_in_domain 50 1.2 18 "Não" "Não" "Não" "Não"). reflexivity.
Defined.

(** On the whole hours of the sidebar the ischemia factor awards what the
    integer comparisons of Python award, it never falls, and it is 0 only
    below 12 hours: the gap between 20 and 21 cannot be entered from the
    page. *)
Theorem whole_hours_have_no_gap (h1 h2 : Z) :
  0 ≤ h1 → h1 ≤ h2 → h2 ≤ 72 →
  pontos_isquemia (float_of_int h1) = pontos_isquemia_horas h1
  ∧ (pontos_isquemia (float_of_int h1) = 0 ↔ h1 < 12)
  ∧ pontos_isquemia (float_of_int h1) ≤ pontos_isquemia (float_of_int h2).
Proof.
  intros H1 H12 H2.
  assert (∀ h, 0 ≤ h ≤ 72 →
    pontos_isquemia (float_of_int h) = pontos_isquemia_horas h) as Heq.
  { intros h Hh%horas_ok_range. unfold horas_ok in Hh.
    apply andb_prop in Hh as [Hh _]. by apply Z.eqb_eq in Hh. }
  rewrite !Heq by lia. split; [done|].
  split; [apply pontos_isquemia_horas_zero|].
  by apply pontos_isquemia_horas_mono.
Qed.

Lemma whole_hours_have_no_gap_witness :
  pontos_isquemia (float_of_int 20) = pontos_isquemia_horas 20
  ∧ (pontos_isquemia (float_of_int 20) = 0 ↔ 20 < 12)
  ∧ pontos_isquemia (float_of_int 20) ≤ pontos_isquemia (float_of_int 21).
Proof. apply (whole_hours_have_no_gap 20 21); lia. Defined.

(** More points never mean a lower percentage or a lower band, and the
    percentage tells raw scores apart: of two profiles, the one with the
    higher raw score has the strictly higher percentage, so equal
    percentages come from equal raw scores. *)
Theorem percentage_follows_raw_score
    (idade1 idade2 : Z) (creatinina1 creatinina2 : float)
    (has1 has2 dm1 dm2 : bool) (tempo1 tempo2 : float)
    (pcr1 pcr2 hcv1 hcv2 : bool) :
  ∃ (p1 p2 : float) (d1 d2 : gmap string Z),
    calcular_score_risco idade1 creatinina1 has1 dm1 tempo1 pcr1 hcv1
      = Ok (p1, d1)
    ∧ calcular_score_risco idade2 creatinina2 has2 dm2 tempo2 pcr2 hcv2
      = Ok (p2, d2)
    ∧ (sum_values d1 < sum_values d2 → (p1 <? p2)%float = true)
    ∧ (sum_values d1 ≤ sum_values d2 →
       (p1 <=? p2)%float = true
       ∧ faixa_rank (classify p1) ≤ faixa_rank (classify p2))
    ∧ ((p1 =? p2)%float = true → sum_values d1 = sum_values d2).
Proof.
  eexists _, _, _, _. split; [apply calcular_score_risco_eq|].
  split; [apply calcular_score_risco_eq|].
  pose proof (score_bruto_range idade1 creatinina1 has1 dm1 tempo1 pcr1 hcv1)
    as R1.
  pose proof (score_bruto_range idade2 creatinina2 has2 dm2 tempo2 pcr2 hcv2)
    as R2.
  unfold score_maximo_possivel in *.
  revert R1 R2.
  generalize
    (sum_values (fatores_de_risco idade1 creatinina1 has1 dm1 tempo1 pcr1 hcv1))
    (sum_values (fatores_de_risco idade2 creatinina2 has2 dm2 tempo2 pcr2 hcv2)).
  intros s1 s2 R1 R2.
  assert (s1 ≤ s2 → (percentual s1 <=? percentual s2)%float = true) as Hle
    by (intros; apply percentual_mono; lia).
  split; [intros; apply percentual_strict_mono; lia|].
  split; [intros; split; [|apply classify_mono]; auto|].
  rewrite FloatAxioms.eqb_spec. intros Heq.
  destruct (Z.lt_total s1 s2) as [Hlt|[?|Hlt]]; [|done|]; exfalso.
  - pose proof (percentual_strict_mono s1 s2 ltac:(lia) Hlt ltac:(lia)) as Hp.
    rewrite FloatAxioms.ltb_spec in Hp. unfold SFltb, SFeqb in *.
    by destruct (SFcompare _ _) as [[]|].
  - pose proof (percentual_strict_mono s2 s1 ltac:(lia) Hlt ltac:(lia)) as Hp.
    apply float_lt_not_le in Hp.
    rewrite FloatAxioms.leb_spec in Hp. unfold SFleb, SFeqb in *.
    by destruct (SFcompare _ _) as [[]|].
Qed.

(** From the page, a donor who is no better in any respect never gets a lower
    raw score, percentage or band: with both inputs from the sidebar, an age,
    a creatinine and an ischemia time that are at least as high, and every
    flag of the first set in the second as well. *)
Theorem worse_donor_never_scores_lower
    (idade1 idade2 : Z) (creatinina1 creatinina2 : float)
    (tempo1 tempo2 : Z) (has1 has2 dm1 dm2 pcr1 pcr2 hcv1 hcv2 : string) :
  sidebar idade1 creatinina1 tempo1 has1 dm1 pcr1 hcv1 = true →
  sidebar idade2 creatinina2 tempo2 has2 dm2 pcr2 hcv2 = true →
  idade1 ≤ idade2 →
  (creatinina1 <=? creatinina2)%float = true →
  tempo1 ≤ tempo2 →
  (has1 = "Sim" → has2 = "Sim") → (dm1 = "Sim" → dm2 = "Sim") →
  (pcr1 = "Sim" → pcr2 = "Sim") → (hcv1 = "Sim" → hcv2 = "Sim") →
  ∃ (p1 p2 : float) (d1 d2 : gmap string Z),
    calcular_score_risco idade1 creatinina1
        (String.eqb has1 "Sim") (String.eqb dm1 "Sim") (float_of_int tempo1)
        (String.eqb pcr1 "Sim") (String.eqb hcv1 "Sim") = Ok (p1, d1)
    ∧ calcular_score_risco idade2 creatinina2
        (String.eqb has2 "Sim") (String.eqb dm2 "Sim") (float_of_int tempo2)
        (String.eqb pcr2 "Sim") (String.eqb hcv2 "Sim") = Ok (p2, d2)
    ∧ sum_values d1 ≤ sum_values d2
    ∧ (p1 <=? p2)%float = true
    ∧ faixa_rank (classify p1) ≤ faixa_rank (classify p2).
Proof.
  intros S1 S2 Hi Hc Ht Hhas Hdm Hpcr Hhcv.
  eexists _, _, _, _. split; [apply calcular_score_risco_eq|].
  split; [apply calcular_score_risco_eq|].
  assert (0 ≤ tempo1 ∧ tempo2 ≤ 72) as [Ht1 Ht2].
  { unfold sidebar in S1, S2.
    repeat (let H' := fresh in apply andb_prop in S1 as [S1 H']).
    repeat (let H' := fresh in apply andb_prop in S2 as [S2 H']).
    split; by apply Z.leb_le. }
  assert (∀ (a b : string) (n : Z), 0 ≤ n → (a = "Sim" → b = "Sim") →
    (if String.eqb a "Sim" then n else 0)
    ≤ (if String.eqb b "Sim" then n else 0)) as Hflag.
  { intros a b n Hn Hab. destruct (String.eqb a "Sim") eqn:Ha.
    - apply String.eqb_eq in Ha. by rewrite (Hab Ha).
    - by case_match. }
  assert (sum_values (fatores_de_risco idade1 creatinina1
            (String.eqb has1 "Sim") (String.eqb dm1 "Sim")
            (float_of_int tempo1) (String.eqb pcr1 "Sim")
            (String.eqb hcv1 "Sim"))
          ≤ sum_values (fatores_de_risco idade2 creatinina2
            (String.eqb has2 "Sim") (String.eqb dm2 "Sim")
            (float_of_int tempo2) (String.eqb pcr2 "Sim")
            (String.eqb hcv2 "Sim"))) as Hsum.
  { rewrite !sum_values_fatores. unfold pontos_atribuidos.
    pose proof (pontos_idade_mono _ _ Hi).
    pose proof (pontos_creatinina_mono _ _ Hc).
    destruct (whole_hours_have_no_gap tempo1 tempo2) as (_ & _ & ?);
      [done..|].
    pose proof (Hflag _ _ 25 ltac:(lia) Hhas).
    pose proof (Hflag _ _ 30 ltac:(lia) Hdm).
    pose proof (Hflag _ _ 15 ltac:(lia) Hpcr).
    pose proof (Hflag _ _ 10 ltac:(lia) Hhcv). lia. }
  split; [done|].
  assert (∀ s1 s2, 0 ≤ s1 → s1 ≤ s2 → s2 ≤ 190 →
    (percentual s1 <=? percentual s2)%float = true) as Hp
    by apply percentual_mono.
  pose proof (score_bruto_range idade1 creatinina1
    (String.eqb has1 "Sim") (String.eqb dm1 "Sim") (float_of_int tempo1)
    (String.eqb pcr1 "Sim") (String.eqb hcv1 "Sim")) as [R1 _].
  pose proof (score_bruto_range idade2 creatinina2
    (String.eqb has2 "Sim") (String.eqb dm2 "Sim") (float_of_int tempo2)
    (String.eqb pcr2 "Sim") (String.eqb hcv2 "Sim")) as [_ R2].
  split; [|apply classify_mono]; by apply Hp.
Qed.

Lemma worse_donor_never_scores_lower_witness :
  ∃ (p1 p2 : float) (d1 d2 : gmap string Z),
    calcular_score_risco 50 1.2
        (String.eqb "Não" "Sim") (String.eqb "Sim" "Sim") (float_of_int 18)
        (String.eqb "Não" "Sim") (String.eqb "Não" "Sim") = Ok (p1, d1)
    ∧ calcular_score_risco 62 2.75
        (String.eqb "Sim" "Sim") (String.eqb "Sim" "Sim") (float_of_int 26)
        (String.eqb "Não" "Sim") (String.eqb "Não" "Sim") = Ok (p2, d2)
    ∧ sum_values d1 ≤ sum_values d2
    ∧ (p1 <=? p2)%float = true
    ∧ faixa_rank (classify p1) ≤ faixa_rank (classify p2).
Proof.
  apply (worse_donor_never_scores_lower 50 62 1.2 2.75 18 26
           "Não" "Sim" "Sim" "Sim" "Não" "Não" "Não" "Não");
    (reflexivity || lia || (intros; reflexivity) || (intros H; exact H)).
Defined.

(** No profile lands on a band boundary: the returned percentage is never
    equal to 30 or to 60, so which side of the comparisons of the banner
    takes the boundary decides nothing. *)
Theorem percentage_never_on_a_boundary
    (idade : Z) (creatinina : float) (has dm : bool)
    (tempo_isquemia : float) (pcr hcv : bool) :
  ∃ (score_percentual : float) (fatores_risco : gmap string Z),
    calcular_score_risco idade creatinina has dm tempo_isquemia pcr hcv
      = Ok (score_percentual, fatores_risco)
    ∧ (score_percentual =? 30)%float = false
    ∧ (score_percentual =? 60)%float = false.
Proof.
  eexists _, _. split; [apply calcular_score_risco_eq|].
  pose proof (score_bruto_range idade creatinina has dm tempo_isquemia pcr hcv)
    as Hs. unfold score_maximo_possivel in Hs.
  rewrite percentual_eq_30, percentual_eq_60 by done.
  rewrite sum_values_fatores.
  destruct (pontos_atribuidos_multiple
    idade creatinina has dm tempo_isquemia pcr hcv) as [k ->].
  split; apply Z.eqb_neq; lia.
Qed.

(** The percentage is 100 exactly for the profile that is in the highest
    tier of every factor: 60 years or more, creatinine above 2.5, more than
    28 hours of ischemia and all four flags. *)
Theorem percentage_100_iff_all_highest
    (idade : Z) (creatinina : float) (has dm : bool)
    (tempo_isquemia : float) (pcr hcv : bool) :
  ∃ (score_percentual : float) (fatores_risco : gmap string Z),
    calcular_score_risco idade creatinina has dm tempo_isquemia pcr hcv
      = Ok (score_percentual, fatores_risco)
    ∧ ((score_percentual =? 100)%float = true ↔
       60 ≤ idade ∧ (2.5 <? creatinina)%float = true
       ∧ has = true ∧ dm = true
       ∧ (28 <? tempo_isquemia)%float = true ∧ pcr = true ∧ hcv = true).
Proof.
  eexists _, _. split; [apply calcular_score_risco_eq|].
  pose proof (score_bruto_range idade creatinina has dm tempo_isquemia pcr hcv)
    as Hs. unfold score_maximo_possivel in Hs.
  rewrite percentual_eq_100 by done. rewrite Z.eqb_eq, sum_values_fatores.
  unfold pontos_atribuidos. split.
  - intros Hsum.
    pose proof (pontos_idade_cases idade) as Hi.
    pose proof (pontos_creatinina_cases creatinina) as Hc.
    pose proof (pontos_isquemia_cases tempo_isquemia) as Ht.
    assert (pontos_idade idade = 40 ∧ pontos_creatinina creatinina = 35
            ∧ pontos_isquemia tempo_isquemia = 35
            ∧ has = true ∧ dm = true ∧ pcr = true ∧ hcv = true)
      as (Hi' & Hc' & Ht' & -> & -> & -> & ->)
      by (destruct has, dm, pcr, hcv; repeat split; try done; lia).
    apply creatinina_35_inv in Hc'. apply isquemia_35_inv in Ht'.
    repeat split; try done.
    revert Hi'. unfold pontos_idade. repeat case_match; lia.
  - intros (Hi & Hc & -> & -> & Ht & -> & ->).
    rewrite (creatinina_high _ Hc), (isquemia_tier3 _ Ht).
    unfold pontos_idade. repeat case_match; lia.
Qed.

Lemma size_guarded_insert (b : bool) (d : gmap string Z) (k : string) (v : Z) :
  d !! k = None →
  size (if b then <[k:=v]> d else d) = (size d + Nat.b2n b)%nat.
Proof.
  intros Hk. destruct b; simpl; [|lia].
  rewrite map_size_insert_None by done. lia.
Qed.

(** The number of entries of the dictionary: the factors that scored. *)
Lemma size_fatores idade creatinina has dm tempo_isquemia pcr hcv :
  size (fatores_de_risco idade creatinina has dm tempo_isquemia pcr hcv) =
  (Nat.b2n (0 <? pontos_idade idade)%Z
   + Nat.b2n (0 <? pontos_creatinina creatinina)%Z
   + Nat.b2n has + Nat.b2n dm
   + Nat.b2n (0 <? pontos_isquemia tempo_isquemia)%Z
   + Nat.b2n pcr + Nat.b2n hcv)%nat.
Proof.
  unfold fatores_de_risco. cbv zeta.
  rewrite !size_guarded_insert, map_size_empty; [lia|..];
    rewrite ?lookup_guarded_insert; by rewrite ?lookup_empty, ?andb_false_r.
Qed.

Lemma percentual_inteiro_nearest s :
  -190 < 200 * s - 380 * percentual_inteiro s < 190.
Proof.
  unfold percentual_inteiro.
  pose proof (Z.div_mod (200 * s + 190) 380 ltac:(lia)).
  pose proof (Z.mod_pos_bound (200 * s + 190) 380 ltac:(lia)).
  lia.
Qed.

(** One factor alone never leaves the low band: a moderate risk takes at
    least two contributing factors and a high risk at least four. *)
Theorem band_needs_several_factors
    (idade : Z) (creatinina : float) (has dm : bool)
    (tempo_isquemia : float) (pcr hcv : bool) :
  ∃ (score_percentual : float) (fatores_risco : gmap string Z),
    calcular_score_risco idade creatinina has dm tempo_isquemia pcr hcv
      = Ok (score_percentual, fatores_risco)
    ∧ (classify score_percentual = RISCO_MODERADO →
       (2 ≤ size fatores_risco)%nat)
    ∧ (classify score_percentual = RISCO_ALTO →
       (4 ≤ size fatores_risco)%nat).
Proof.
  eexists _, _. split; [apply calcular_score_risco_eq|].
  pose proof (score_bruto_range idade creatinina has dm tempo_isquemia pcr hcv)
    as Hs. unfold score_maximo_possivel in Hs.
  pose proof (percentual_lt_30 _ Hs) as H30.
  pose proof (percentual_lt_60 _ Hs) as H60.
  pose proof (percentual_number _ Hs) as Hn.
  pose proof (percentual_inteiro_nearest
    (sum_values (fatores_de_risco idade creatinina has dm tempo_isquemia pcr hcv)))
    as Hnear.
  rewrite size_fatores. rewrite sum_values_fatores in *.
  pose proof (pontos_idade_cases idade) as Hi.
  pose proof (pontos_creatinina_cases creatinina) as Hc.
  pose proof (pontos_isquemia_cases tempo_isquemia) as Ht.
  split.
  - intros [Hp _]%classify_moderado_inv. apply float_le_not_lt in Hp.
    rewrite Hp in H30. symmetry in H30. apply Z.ltb_ge in H30.
    assert (57 ≤ pontos_atribuidos idade creatinina has dm tempo_isquemia
                   pcr hcv) as Hraw by lia.
    clear -Hraw Hi Hc Ht. unfold pontos_atribuidos in Hraw.
    destruct Hi as [Hi|[Hi|[Hi|Hi]]], Hc as [Hc|[Hc|Hc]],
      Ht as [Ht|[Ht|[Ht|Ht]]]; rewrite Hi, Hc, Ht in *;
      destruct has, dm, pcr, hcv; simpl in *; lia.
  - intros Hp%classify_alto_inv; [|done]. apply float_le_not_lt in Hp.
    rewrite Hp in H60. symmetry in H60. apply Z.ltb_ge in H60.
    assert (114 ≤ pontos_atribuidos idade creatinina has dm tempo_isquemia
                    pcr hcv) as Hraw by lia.
    clear -Hraw Hi Hc Ht. unfold pontos_atribuidos in Hraw.
    destruct Hi as [Hi|[Hi|[Hi|Hi]]], Hc as [Hc|[Hc|Hc]],
      Ht as [Ht|[Ht|[Ht|Ht]]]; rewrite Hi, Hc, Ht in *;
      destruct has, dm, pcr, hcv; simpl in *; lia.
Qed.

(** The first column for the percentage of a raw score: the colour and the
    box follow the integer that is shown. *)
Lemma coluna_score_percentual s :
  0 ≤ s ≤ 190 →
  coluna_score (percentual s) =
  st_subheader "Score de Risco (IQR-BR)" ::
  if percentual_inteiro s <? 30 then
    [ st_markdown ("<h1 style='text-align: center; color: green;'>"
                   +:+ pretty (percentual_inteiro s) +:+ "%</h1>");
      st_success "**RISCO BAIXO:** Perfil favorável, associado a maior expectativa de sobrevida do enxerto." ]
  else if percentual_inteiro s <? 60 then
    [ st_markdown ("<h1 style='text-align: center; color: orange;'>"
                   +:+ pretty (percentual_inteiro s) +:+ "%</h1>");
      st_warning "**RISCO MODERADO:** Presença de fatores de risco que podem impactar a sobrevida do enxerto. Avaliar com cautela." ]
  else
    [ st_markdown ("<h1 style='text-align: center; color: red;'>"
                   +:+ pretty (percentual_inteiro s) +:+ "%</h1>");
      st_error "**RISCO ALTO:** Múltiplos fatores de risco significativos. Associado a menor expectativa de sobrevida do enxerto." ].
Proof.
  intros Hs. unfold coluna_score, h1.
  rewrite (format_percentual s Hs), (percentual_lt_30 s Hs),
    (percentual_lt_60 s Hs).
  destruct (percentual_inteiro s <? 30) eqn:H30; [done|].
  rewrite (float_not_lt_le (percentual s) 30);
    [done | by apply percentual_number | done |].
  by rewrite percentual_lt_30, H30.
Qed.

Lemma pagina_eq df idade creatinina tempo_isquemia has dm pcr hcv :
  pagina df idade creatinina tempo_isquemia has dm pcr hcv =
  let fatores :=
    fatores_de_risco idade creatinina (String.eqb has "Sim")
      (String.eqb dm "Sim") (float_of_int tempo_isquemia)
      (String.eqb pcr "Sim") (String.eqb hcv "Sim") in
  Ok {| principal := [ st_markdown "---"; st_header "Resultados da Avaliação" ];
        col1 := coluna_score (percentual (sum_values fatores));
        col2 := coluna_fatores df fatores |}.
Proof. reflexivity. Qed.

(** The number in the heading of the page is the integer nearest to the
    exact percentage 100 * rawSum / 190, between 0 and 100: neither the
    rounding of the two binary64 operations nor that of the [.0f] format
    moves it. *)
Theorem shown_percentage_is_nearest_integer
    (df : gmap string Z → list (string * Z))
    (idade : Z) (creatinina : float) (tempo_isquemia : Z)
    (has dm pcr hcv : string) :
  ∃ (r : resultados) (score : float) (fatores : gmap string Z)
    (n : Z) (inicio : string) (caixa : elemento),
    pagina df idade creatinina tempo_isquemia has dm pcr hcv = Ok r
    ∧ calcular_score_risco idade creatinina
        (String.eqb has "Sim") (String.eqb dm "Sim")
        (float_of_int tempo_isquemia)
        (String.eqb pcr "Sim") (String.eqb hcv "Sim") = Ok (score, fatores)
    ∧ col1 r = [ st_subheader "Score de Risco (IQR-BR)";
                 st_markdown (inicio +:+ pretty n +:+ "%</h1>");
                 caixa ]
    ∧ format_0f score = pretty n
    ∧ 0 ≤ n ≤ 100
    ∧ -190 < 200 * sum_values fatores - 380 * n < 190.
Proof.
  pose proof (score_bruto_range idade creatinina
    (String.eqb has "Sim") (String.eqb dm "Sim") (float_of_int tempo_isquemia)
    (String.eqb pcr "Sim") (String.eqb hcv "Sim")) as Hs.
  unfold score_maximo_possivel in Hs.
  pose proof (percentual_inteiro_nearest (sum_values (fatores_de_risco
    idade creatinina (String.eqb has "Sim") (String.eqb dm "Sim")
    (float_of_int tempo_isquemia) (String.eqb pcr "Sim")
    (String.eqb hcv "Sim")))) as Hn.
  pose proof (coluna_score_percentual _ Hs) as Hcol.
  pose proof (format_percentual _ Hs) as Hfmt.
  destruct (percentual_inteiro _ <? 30); [|destruct (_ <? 60)];
    eexists _, _, _, (percentual_inteiro _), _, _;
    (split; [apply pagina_eq|]); (split; [apply calcular_score_risco_eq|]);
    cbv zeta; simpl col1; rewrite Hcol;
    (split; [reflexivity|]); (split; [exact Hfmt|]); (split; [lia|done]).
Qed.

(** The colour of the heading and the box under it agree with the number
    that is shown: green and the low-risk box below 30, orange and the
    moderate-risk box from 30 to 59, red and the high-risk box from 60 on.
    The page never shows 30% in green or 60% in orange. *)
Theorem banner_agrees_with_shown_number
    (df : gmap string Z → list (string * Z))
    (idade : Z) (creatinina : float) (tempo_isquemia : Z)
    (has dm pcr hcv : string) :
  ∃ (r : resultados) (n : Z) (cor : string) (caixa : elemento),
    pagina df idade creatinina tempo_isquemia has dm pcr hcv = Ok r
    ∧ col1 r = [ st_subheader "Score de Risco (IQR-BR)";
                 st_markdown ("<h1 style='text-align: center; color: "
                              +:+ cor +:+ ";'>" +:+ pretty n +:+ "%</h1>");
                 caixa ]
    ∧ ((n < 30 ∧ cor = "green" ∧ ∃ msg, caixa = st_success msg)
       ∨ (30 ≤ n < 60 ∧ cor = "orange" ∧ ∃ msg, caixa = st_warning msg)
       ∨ (60 ≤ n ∧ cor = "red" ∧ ∃ msg, caixa = st_error msg)).
Proof.
  pose proof (score_bruto_range idade creatinina
    (String.eqb has "Sim") (String.eqb dm "Sim") (float_of_int tempo_isquemia)
    (String.eqb pcr "Sim") (String.eqb hcv "Sim")) as Hs.
  unfold score_maximo_possivel in Hs.
  pose proof (coluna_score_percentual _ Hs) as Hcol.
  destruct (percentual_inteiro _ <? 30) eqn:H30;
    [|destruct (percentual_inteiro _ <? 60) eqn:H60].
  - eexists _, (percentual_inteiro _), "green", _.
    split; [apply pagina_eq|]. cbv zeta. simpl col1. rewrite Hcol.
    split; [reflexivity|]. left. apply Z.ltb_lt in H30. eauto.
  - eexists _, (percentual_inteiro _), "orange", _.
    split; [apply pagina_eq|]. cbv zeta. simpl col1. rewrite Hcol.
    split; [reflexivity|]. right; left.
    apply Z.ltb_ge in H30. apply Z.ltb_lt in H60. eauto.
  - eexists _, (percentual_inteiro _), "red", _.
    split; [apply pagina_eq|]. cbv zeta. simpl col1. rewrite Hcol.
    split; [reflexivity|]. right; right. apply Z.ltb_ge in H60. eauto.
Qed.

(** * The second column *)

Lemma percentual_zero_iff_empty idade creatinina has dm tempo_isquemia pcr hcv :
  (percentual (sum_values
     (fatores_de_risco idade creatinina has dm tempo_isquemia pcr hcv)) =? 0)%float
    = true
  ↔ fatores_de_risco idade creatinina has dm tempo_isquemia pcr hcv = ∅.
Proof.
  rewrite percentual_zero by apply score_bruto_range.
  rewrite sum_values_fatores, pontos_zero_iff. symmetry.
  apply fatores_empty_iff.
Qed.

Lemma sum_values_foldr (d : gmap string Z) :
  sum_values d = foldr Z.add 0 (map_to_list d).*2.
Proof.
  unfold sum_values. rewrite map_fold_foldr.
  induction (map_to_list d) as [|[k v] l IH]; simpl; [done|].
  rewrite Z.add_comm. f_equal. apply IH.
Qed.

Lemma foldr_add_Permutation (l1 l2 : list Z) :
  l1 ≡ₚ l2 → foldr Z.add 0 l1 = foldr Z.add 0 l2.
Proof. induction 1; simpl; lia. Qed.

#[global] Instance pontos_le_total : Total pontos_le.
Proof. intros a b. unfold pontos_le. lia. Qed.

(** The sort of this development keeps the contract asked of pandas. *)
Lemma df_fatores_merge_items (d : gmap string Z) :
  df_fatores_merge d ≡ₚ map_to_list d.
Proof. apply merge_sort_Permutation. Qed.

Lemma df_fatores_merge_sorted (d : gmap string Z) :
  Sorted pontos_le (df_fatores_merge d).
Proof. apply Sorted_merge_sort, _. Qed.

Section Chart.
Variable df_fatores : gmap string Z → list (string * Z).
Hypothesis df_items : ∀ d, df_fatores d ≡ₚ map_to_list d.
Hypothesis df_sorted : ∀ d, Sorted pontos_le (df_fatores d).

Lemma chart_entries (d : gmap string Z) (k : string) (v : Z) :
  (k, v) ∈ zip (df_fatores d).*1 (df_fatores d).*2 ↔ d !! k = Some v.
Proof. by rewrite zip_fst_snd, df_items, elem_of_map_to_list. Qed.

Lemma chart_labels_NoDup (d : gmap string Z) : NoDup (df_fatores d).*1.
Proof. rewrite df_items. apply NoDup_fst_map_to_list. Qed.

Lemma chart_points_sorted (d : gmap string Z) : Sorted Z.le (df_fatores d).*2.
Proof. eapply Sorted_fmap; [|apply df_sorted]. done. Qed.

Lemma chart_points_sum (d : gmap string Z) :
  foldr Z.add 0 (df_fatores d).*2 = sum_values d.
Proof.
  rewrite sum_values_foldr. apply foldr_add_Permutation.
  by rewrite df_items.
Qed.

Lemma chart_length (d : gmap string Z) : length (df_fatores d) = size d.
Proof. by rewrite df_items, length_map_to_list. Qed.

(** The second column shows the notice exactly when the percentage is 0, and
    otherwise a bar chart of the contributions: one bar for each entry of the
    dictionary and no other, each label once, the points positive and in
    ascending order and adding up to the raw score, between one and seven
    bars. *)
Theorem second_column_shows_the_contributions
    (idade : Z) (creatinina : float) (tempo_isquemia : Z)
    (has dm pcr hcv : string) :
  ∃ (r : resultados) (score : float) (fatores : gmap string Z),
    pagina df_fatores idade creatinina tempo_isquemia has dm pcr hcv = Ok r
    ∧ calcular_score_risco idade creatinina
        (String.eqb has "Sim") (String.eqb dm "Sim")
        (float_of_int tempo_isquemia)
        (String.eqb pcr "Sim") (String.eqb hcv "Sim") = Ok (score, fatores)
    ∧ ((score =? 0)%float = true →
       col2 r = [ st_subheader "Contribuição por Fator de Risco";
                  st_info "Nenhum fator de risco significativo identificado para este doador." ])
    ∧ ((score =? 0)%float = false →
       ∃ (x : list Z) (y : list string),
         col2 r = [ st_subheader "Contribuição por Fator de Risco";
                    st_plotly_chart x y ]
         ∧ length x = length y
         ∧ (∀ (k : string) (v : Z), (k, v) ∈ zip y x ↔ fatores !! k = Some v)
         ∧ NoDup y
         ∧ Sorted Z.le x
         ∧ Forall (λ v, 0 < v) x
         ∧ foldr Z.add 0 x = sum_values fatores
         ∧ (1 ≤ length x ≤ 7)%nat).
Proof.
  eexists _, _, _. split; [apply pagina_eq|].
  split; [apply calcular_score_risco_eq|]. cbv zeta. simpl col2.
  unfold coluna_fatores. split.
  - intros Hz%percentual_zero_iff_empty.
    by rewrite bool_decide_eq_true_2.
  - intros Hz. rewrite bool_decide_eq_false_2; last first.
    { intros He%percentual_zero_iff_empty. congruence. }
    eexists _, _. split; [reflexivity|].
    split; [by rewrite !length_fmap|]. split; [apply chart_entries|].
    split; [apply chart_labels_NoDup|]. split; [apply chart_points_sorted|].
    split; [|split; [apply chart_points_sum|]].
    + apply Forall_forall. intros v [[k v'] [-> Hkv]]%list_elem_of_fmap.
      rewrite df_items in Hkv. apply elem_of_map_to_list in Hkv.
      by apply fatores_positive in Hkv.
    + rewrite length_fmap, chart_length, size_fatores.
      split; [|unfold Nat.b2n; repeat case_match; lia].
      destruct (decide (size (fatores_de_risco idade creatinina
        (String.eqb has "Sim") (String.eqb dm "Sim")
        (float_of_int tempo_isquemia) (String.eqb pcr "Sim")
        (String.eqb hcv "Sim")) = 0%nat)) as [Hsz|Hsz].
      * apply map_size_empty_iff, percentual_zero_iff_empty in Hsz.
        congruence.
      * rewrite size_fatores in Hsz. lia.
Qed.
End Chart.

Lemma second_column_shows_the_contributions_witness :
  ∃ (r : resultados) (score : float) (fatores : gmap string Z),
    pagina df_fatores_merge 55 1.2 10 "Sim" "Não" "Não" "Não" = Ok r
    ∧ calcular_score_risco 55 1.2
        (String.eqb "Sim" "Sim") (String.eqb "Não" "Sim")
        (float_of_int 10)
        (String.eqb "Não" "Sim") (String.eqb "Não" "Sim") = Ok (score, fatores)
    ∧ ((score =? 0)%float = true →
       col2 r = [ st_subheader "Contribuição por Fator de Risco";
                  st_info "Nenhum fator de risco significativo identificado para este doador." ])
    ∧ ((score =? 0)%float = false →
       ∃ (x : list Z) (y : list string),
         col2 r = [ st_subheader "Contribuição por Fator de Risco";
                    st_plotly_chart x y ]
         ∧ length x = length y
         ∧ (∀ (k : string) (v : Z), (k, v) ∈ zip y x ↔ fatores !! k = Some v)
         ∧ NoDup y
         ∧ Sorted Z.le x
         ∧ Forall (λ v, 0 < v) x
         ∧ foldr Z.add 0 x = sum_values fatores
         ∧ (1 ≤ length x ≤ 7)%nat).
Proof.
  exact (second_column_shows_the_contributions df_fatores_merge
           df_fatores_merge_items df_fatores_merge_sorted
           55 1.2 10 "Sim" "Não" "Não" "Não").
Defined.

(** The page run on the moderate example, with the sort of this
    development: two bars of 25 points. *)
Example pagina_moderate_example :
  ∃ r, pagina df_fatores_merge 55 1.2 10 "Sim" "Não" "Não" "Não" = Ok r
       ∧ col2 r = [ st_subheader "Contribuição por Fator de Risco";
                    st_plotly_chart [25; 25] ["Idade"; "Hipertensão"] ].
Proof. eexists. split; [apply pagina_eq|]. vm_compute. reflexivity. Qed.
